(** * linted-paths: runtime path validators, project-root resolver,
      static path checker and language-service shim.

    Shallow embedding of
      - [src/utils/project-root.ts]: findProjectRoot, isProjectRoot;
      - the module the tests import as [../index] (part_000):
        getProjectRoot, FilePath, FolderPath, AnyPath, validatePath;
      - the module the tests import as [../linter] (part_001):
        PathLinter, createPathLinterPlugin;
    together with the parts of the JavaScript runtime the code calls:
    strings as sequences of UTF-16 code units, [String.prototype.trim],
    [String.prototype.startsWith], the forbidden-character regular
    expression and the POSIX flavour of Node's [path] module.  The
    host (working directory, file system) is a parameter of every
    function that reads it. *)

From Stdlib Require Import List NArith ZArith Bool String Ascii Arith Lia.
From Equations Require Import Equations.
Import ListNotations.

(* ================================================================== *)
(** * JavaScript strings                                               *)
(* ================================================================== *)

(** A JavaScript string is a sequence of UTF-16 code units. *)
Definition jsstring : Type := list N.

(** String literals of the source, written with Rocq string syntax. *)
Definition js (s : string) : jsstring :=
  List.map N_of_ascii (list_ascii_of_string s).

Module JsString.

Fixpoint eqb (a b : jsstring) : bool :=
  match a, b with
  | [], [] => true
  | x :: a', y :: b' => N.eqb x y && eqb a' b'
  | _, _ => false
  end.

(** [s.length] *)
Definition length (s : jsstring) : Z := Z.of_nat (List.length s).

(** [s.startsWith(search)] *)
Fixpoint startsWith (s search : jsstring) {struct search} : bool :=
  match search, s with
  | [], _ => true
  | y :: search', x :: s' => N.eqb x y && startsWith s' search'
  | _ :: _, [] => false
  end.

(** [s.charCodeAt(i)]; [None] stands for [NaN]. *)
Definition charCodeAt (s : jsstring) (i : Z) : option N :=
  if (i <? 0)%Z then None else nth_error s (Z.to_nat i).

(** [s.charCodeAt(i) === c] *)
Definition charCodeIs (s : jsstring) (i : Z) (c : N) : bool :=
  match charCodeAt s i with
  | Some x => N.eqb x c
  | None => false
  end.

(** [s.slice(from, to)], with negative indices counted from the end. *)
Definition slice (s : jsstring) (from to : Z) : jsstring :=
  let len := length s in
  let clamp (k : Z) : Z :=
    if (k <? 0)%Z then Z.max (len + k) 0 else Z.min k len in
  let a := clamp from in
  let b := clamp to in
  firstn (Z.to_nat (b - a)) (skipn (Z.to_nat a) s).

(** [s.slice(from)] *)
Definition sliceFrom (s : jsstring) (from : Z) : jsstring :=
  slice s from (length s).

Fixpoint lastIndexOf_from (s : jsstring) (c : N) (i acc : Z) : Z :=
  match s with
  | [] => acc
  | x :: s' => lastIndexOf_from s' c (i + 1) (if N.eqb x c then i else acc)
  end.

(** [s.lastIndexOf(c)] for a one-character search string. *)
Definition lastIndexOf (s : jsstring) (c : N) : Z :=
  lastIndexOf_from s c 0 (-1).

(** ECMAScript [WhiteSpace] and [LineTerminator] code points, the ones
    [String.prototype.trim] strips. *)
Definition isWhiteSpace (c : N) : bool :=
  ((9 <=? c) && (c <=? 13) || (c =? 32) || (c =? 160) || (c =? 5760)
   || (8192 <=? c) && (c <=? 8202) || (c =? 8232) || (c =? 8233)
   || (c =? 8239) || (c =? 8287) || (c =? 12288) || (c =? 65279))%N.

Fixpoint trimStart (s : jsstring) : jsstring :=
  match s with
  | c :: s' => if isWhiteSpace c then trimStart s' else s
  | [] => []
  end.

Definition trimEnd (s : jsstring) : jsstring :=
  rev (trimStart (rev s)).

(** [s.trim()] *)
Definition trim (s : jsstring) : jsstring := trimEnd (trimStart s).

(** Truthiness of a string: [!s] holds exactly for the empty string. *)
Definition falsy (s : jsstring) : bool :=
  match s with [] => true | _ :: _ => false end.

End JsString.

(* ================================================================== *)
(** * Exceptions                                                       *)
(* ================================================================== *)

(** The exceptions the code can raise: [new Error(message)] and the
    engine's [TypeError]. *)
Inductive JsError : Type :=
| Error (message : jsstring)
| TypeError.

Inductive result (A : Type) : Type :=
| Return (a : A)
| Throw (e : JsError).
Arguments Return {A} a.
Arguments Throw {A} e.

Definition bind {A B : Type} (m : result A) (k : A -> result B) : result B :=
  match m with
  | Return a => k a
  | Throw e => Throw e
  end.

Notation "x <- m ;; k" := (bind m (fun x => k))
  (at level 61, m at next level, right associativity).

(* ================================================================== *)
(** * Node's [path] module, POSIX flavour                              *)
(* ================================================================== *)

(** The functions of [path] the code calls, after the [posix] object of
    Node's [lib/path.js]: the loops are kept as loops, with their
    indices and sentinels.  [process.cwd()], which [resolve] and
    [relative] read, is passed in. *)

Module path.
Import JsString.

Definition CHAR_FORWARD_SLASH : N := 47.
Definition CHAR_DOT : N := 46.

Definition isPosixPathSeparator (code : N) : bool :=
  N.eqb code CHAR_FORWARD_SLASH.

(** Loop state of [normalizeString]. *)
Record NormState : Type := mkNorm {
  res : jsstring;
  lastSegmentLength : Z;
  lastSlash : Z;
  dots : Z;
  code : N
}.

(** One iteration of the [for] loop of [normalizeString]; [None] is
    [break]. *)
Definition normalizeString_body (p : jsstring) (allowAboveRoot : bool)
    (i : Z) (st : NormState) : option NormState :=
  let next_code :=
    if (i <? length p)%Z then
      match charCodeAt p i with Some c => Some c | None => Some 0%N end
    else if isPosixPathSeparator (code st) then None
    else Some CHAR_FORWARD_SLASH in
  match next_code with
  | None => None
  | Some c =>
    if isPosixPathSeparator c then
      if ((lastSlash st =? i - 1) || (dots st =? 1))%Z then
        Some (mkNorm (res st) (lastSegmentLength st) i 0 c)
      else if (dots st =? 2)%Z then
        let above :=
          if allowAboveRoot then
            mkNorm (res st ++ (if (0 <? length (res st))%Z
                               then js "/.." else js ".."))
                   2 i 0 c
          else mkNorm (res st) (lastSegmentLength st) i 0 c in
        if ((length (res st) <? 2)%Z
            || negb (lastSegmentLength st =? 2)%Z
            || negb (charCodeIs (res st) (length (res st) - 1) CHAR_DOT)
            || negb (charCodeIs (res st) (length (res st) - 2) CHAR_DOT))
        then
          if (2 <? length (res st))%Z then
            let lastSlashIndex := lastIndexOf (res st) CHAR_FORWARD_SLASH in
            if (lastSlashIndex =? -1)%Z then
              Some (mkNorm [] 0 i 0 c)
            else
              let res' := slice (res st) 0 lastSlashIndex in
              Some (mkNorm res'
                      (length res' - 1 - lastIndexOf res' CHAR_FORWARD_SLASH)
                      i 0 c)
          else if negb (length (res st) =? 0)%Z then
            Some (mkNorm [] 0 i 0 c)
          else Some above
        else Some above
      else
        let segment := slice p (lastSlash st + 1) i in
        Some (mkNorm (if (0 <? length (res st))%Z
                      then res st ++ js "/" ++ segment
                      else segment)
                     (i - lastSlash st - 1) i 0 c)
    else if N.eqb c CHAR_DOT && negb (dots st =? -1)%Z then
      Some (mkNorm (res st) (lastSegmentLength st) (lastSlash st)
                   (dots st + 1) c)
    else
      Some (mkNorm (res st) (lastSegmentLength st) (lastSlash st) (-1) c)
  end.

Fixpoint normalizeString_loop (p : jsstring) (allowAboveRoot : bool)
    (n : nat) (i : Z) (st : NormState) : NormState :=
  match n with
  | O => st
  | S n' =>
    match normalizeString_body p allowAboveRoot i st with
    | None => st
    | Some st' => normalizeString_loop p allowAboveRoot n' (i + 1) st'
    end
  end.

(** [normalizeString(path, allowAboveRoot, '/', isPosixPathSeparator)]:
    the loop runs for [i = 0 .. path.length]. *)
Definition normalizeString (p : jsstring) (allowAboveRoot : bool) : jsstring :=
  res (normalizeString_loop p allowAboveRoot (S (List.length p)) 0
         (mkNorm [] 0 (-1) 0 0%N)).

(** [path.isAbsolute(p)] *)
Definition isAbsolute (p : jsstring) : bool :=
  (0 <? length p)%Z && charCodeIs p 0 CHAR_FORWARD_SLASH.

(** [path.normalize(p)] *)
Definition normalize (p : jsstring) : jsstring :=
  if (length p =? 0)%Z then js "."
  else
    let isAbs := charCodeIs p 0 CHAR_FORWARD_SLASH in
    let trailingSeparator := charCodeIs p (length p - 1) CHAR_FORWARD_SLASH in
    let p' := normalizeString p (negb isAbs) in
    if (length p' =? 0)%Z then
      if isAbs then js "/"
      else if trailingSeparator then js "./" else js "."
    else
      let p'' := if trailingSeparator then p' ++ js "/" else p' in
      if isAbs then js "/" ++ p'' else p''.

(** The accumulation loop of [path.join(...args)]; [None] is
    [joined === undefined]. *)
Fixpoint join_loop (args : list jsstring) (joined : option jsstring)
    : option jsstring :=
  match args with
  | [] => joined
  | arg :: args' =>
    join_loop args'
      (if (0 <? length arg)%Z then
         match joined with
         | None => Some arg
         | Some j => Some (j ++ js "/" ++ arg)
         end
       else joined)
  end.

(** [path.join(...args)] *)
Definition join (args : list jsstring) : jsstring :=
  match args with
  | [] => js "."
  | _ =>
    match join_loop args None with
    | None => js "."
    | Some joined => normalize joined
    end
  end.

(** The right-to-left loop of [path.resolve]: [rargs] are the arguments
    not yet consumed, last one first; when they run out the working
    directory is used once ([i = -1]). *)
Fixpoint resolve_loop (cwd : jsstring) (rargs : list jsstring)
    (resolvedPath : jsstring) : jsstring * bool :=
  match rargs with
  | [] =>
    if (length cwd =? 0)%Z then (resolvedPath, false)
    else (cwd ++ js "/" ++ resolvedPath, charCodeIs cwd 0 CHAR_FORWARD_SLASH)
  | p :: rargs' =>
    if (length p =? 0)%Z then resolve_loop cwd rargs' resolvedPath
    else
      let resolvedPath' := p ++ js "/" ++ resolvedPath in
      if charCodeIs p 0 CHAR_FORWARD_SLASH then (resolvedPath', true)
      else resolve_loop cwd rargs' resolvedPath'
  end.

(** [path.resolve(...args)], with [cwd] the value of [process.cwd()]. *)
Definition resolve (cwd : jsstring) (args : list jsstring) : jsstring :=
  let '(resolvedPath, resolvedAbsolute) := resolve_loop cwd (rev args) [] in
  let resolvedPath' := normalizeString resolvedPath (negb resolvedAbsolute) in
  if resolvedAbsolute then js "/" ++ resolvedPath'
  else if (0 <? length resolvedPath')%Z then resolvedPath' else js ".".

(** The backwards scan of [path.dirname]: [for (i = len - 1; i >= 1; --i)];
    the result is [end], [None] standing for [-1]. *)
Fixpoint dirname_scan (p : jsstring) (i : nat) (matchedSlash : bool)
    : option nat :=
  match i with
  | O => None
  | S i' =>
    if charCodeIs p (Z.of_nat i) CHAR_FORWARD_SLASH then
      if negb matchedSlash then Some i
      else dirname_scan p i' matchedSlash
    else dirname_scan p i' false
  end.

(** [path.dirname(p)] *)
Definition dirname (p : jsstring) : jsstring :=
  if (length p =? 0)%Z then js "."
  else
    let hasRoot := charCodeIs p 0 CHAR_FORWARD_SLASH in
    match dirname_scan p (List.length p - 1) true with
    | None => if hasRoot then js "/" else js "."
    | Some e =>
      if hasRoot && Nat.eqb e 1 then js "//"
      else slice p 0 (Z.of_nat e)
    end.

(** First loop of [path.relative]: the longest common prefix of
    [from] and [to] after their leading slash.  Returns the final [i]
    and [lastCommonSep]. *)
Fixpoint relative_common (from to : jsstring) (n : nat) (i lastCommonSep : Z)
    : Z * Z :=
  match n with
  | O => (i, lastCommonSep)
  | S n' =>
    match charCodeAt from (1 + i), charCodeAt to (1 + i) with
    | Some fromCode, Some toCode =>
      if negb (N.eqb fromCode toCode) then (i, lastCommonSep)
      else relative_common from to n' (i + 1)
             (if N.eqb fromCode CHAR_FORWARD_SLASH then i else lastCommonSep)
    | _, _ => (i, lastCommonSep)
    end
  end.

(** Second loop of [path.relative]: one [..] for every segment of
    [from] below the common prefix. *)
Fixpoint relative_up (from : jsstring) (n : nat) (i : Z) (out : jsstring)
    : jsstring :=
  match n with
  | O => out
  | S n' =>
    relative_up from n' (i + 1)
      (if (i =? length from)%Z || charCodeIs from i CHAR_FORWARD_SLASH
       then out ++ (if (length out =? 0)%Z then js ".." else js "/..")
       else out)
  end.

(** [path.relative(from, to)] *)
Definition relative (cwd from to : jsstring) : jsstring :=
  if eqb from to then []
  else
    let from := resolve cwd [from] in
    let to := resolve cwd [to] in
    if eqb from to then []
    else
      let fromStart := 1%Z in
      let fromEnd := length from in
      let fromLen := (fromEnd - fromStart)%Z in
      let toStart := 1%Z in
      let toLen := (length to - toStart)%Z in
      let len := if (fromLen <? toLen)%Z then fromLen else toLen in
      let '(i, lastCommonSep) :=
        relative_common from to (Z.to_nat len) 0 (-1) in
      let after_common (k : unit) : jsstring :=
        let lastCommonSep :=
          if (i =? len)%Z && negb (len <? toLen)%Z && (len <? fromLen)%Z then
            if charCodeIs from (fromStart + i) CHAR_FORWARD_SLASH then i
            else if (i =? 0)%Z then 0%Z
            else lastCommonSep
          else lastCommonSep in
        let out :=
          relative_up from
            (Z.to_nat (fromEnd - (fromStart + lastCommonSep + 1) + 1))
            (fromStart + lastCommonSep + 1) [] in
        out ++ sliceFrom to (toStart + lastCommonSep) in
      if (i =? len)%Z && (len <? toLen)%Z then
        if charCodeIs to (toStart + i) CHAR_FORWARD_SLASH then
          sliceFrom to (toStart + i + 1)
        else if (i =? 0)%Z then sliceFrom to (toStart + i)
        else after_common tt
      else after_common tt.

End path.

(* ================================================================== *)
(** * The host: working directory and file system                      *)
(* ================================================================== *)

(** What the code observes of its host: [process.cwd()] and
    [fs.existsSync].  Nothing in the code writes to the file system, so
    one value of [Env] stands for the host during a whole run. *)
Record Env : Type := mkEnv {
  cwd : jsstring;
  existsSync : jsstring -> bool
}.

(** A file system given by the list of the paths that exist. *)
Definition fsOf (cwd : jsstring) (paths : list jsstring) : Env :=
  mkEnv cwd (fun p => existsb (JsString.eqb p) paths).

(* ================================================================== *)
(** * src/utils/project-root.ts                                        *)
(* ================================================================== *)

Definition markers : list jsstring :=
  [ js ".git"; js "package.json"; js "yarn.lock"; js "pnpm-lock.yaml";
    js "package-lock.json"; js "lerna.json"; js "nx.json";
    js "workspace.json" ].

Definition notFoundMessage : jsstring :=
  js "Could not find project root. Make sure you are in a project directory with package.json or .git".

(** The inner [for (const marker of markers)] loop with its [return]:
    some marker exists in [dir]. *)
Definition hasMarker (fs : Env) (dir : jsstring) : bool :=
  existsb (fun marker => existsSync fs (path.join [dir; marker])) markers.

(** [currentDir !== path.dirname(currentDir)], the guard of the loop. *)
Definition hasParent (currentDir : jsstring) : bool :=
  negb (JsString.eqb currentDir (path.dirname currentDir)).

(** Variant of the [while] loop: a directory that is its own parent
    needs no further iteration, any other one is longer than its
    parent unless the parent is its own parent. *)
Definition dirMeasure (currentDir : jsstring) : nat :=
  if hasParent currentDir then S (List.length currentDir) else 0.

(** Termination of the walk: the index [dirname] cuts at lies
    strictly inside the path. *)
Lemma dirname_scan_bounds (p : jsstring) (i : nat) (matchedSlash : bool)
    (e : nat) :
  path.dirname_scan p i matchedSlash = Some e ->
  1 <= e <= i /\ (matchedSlash = true -> e < i).
Proof.
  revert matchedSlash.
  induction i as [|i IH]; intros m H; cbn [path.dirname_scan] in H;
    [discriminate|].
  destruct (JsString.charCodeIs p (Z.of_nat (S i)) path.CHAR_FORWARD_SLASH).
  - destruct m; simpl in H.
    + apply IH in H. destruct H as [Hb Hlt]. specialize (Hlt eq_refl). lia.
    + injection H as <-. split; [lia | discriminate].
  - apply IH in H. lia.
Qed.

Lemma slice_prefix_length (p : jsstring) (e : nat) :
  e <= List.length p ->
  List.length (JsString.slice p 0 (Z.of_nat e)) = e.
Proof.
  intros He. unfold JsString.slice, JsString.length.
  replace (0 <? 0)%Z with false by reflexivity.
  destruct (Z.of_nat e <? 0)%Z eqn:Hneg; [apply Z.ltb_lt in Hneg; lia|].
  rewrite Z.min_l by lia. rewrite Z.min_l by lia.
  rewrite Z.sub_0_r, Nat2Z.id. simpl.
  rewrite length_firstn. lia.
Qed.

Lemma dirname_decreases (d : jsstring) :
  hasParent d = true -> dirMeasure (path.dirname d) < dirMeasure d.
Proof.
  intros Hd. unfold dirMeasure at 2. rewrite Hd.
  unfold dirMeasure.
  destruct (hasParent (path.dirname d)) eqn:Hp; [|lia].
  apply -> Nat.succ_lt_mono.
  unfold path.dirname in *.
  destruct (JsString.length d =? 0)%Z; [discriminate Hp|].
  destruct (path.dirname_scan d (List.length d - 1) true) as [e|] eqn:Hscan.
  - apply dirname_scan_bounds in Hscan.
    destruct Hscan as [Hb Hlt]. specialize (Hlt eq_refl).
    destruct (JsString.charCodeIs d 0 path.CHAR_FORWARD_SLASH && Nat.eqb e 1).
    + simpl. lia.
    + rewrite slice_prefix_length by lia. lia.
  - destruct (JsString.charCodeIs d 0 path.CHAR_FORWARD_SLASH);
      discriminate Hp.
Qed.

(** Pairs a value with the equation that names it, so that the branch
    taken on the loop guard is known in that branch. *)
Definition inspect {A : Type} (a : A) : {b : A | a = b} := exist _ a eq_refl.

(** The [while (currentDir !== path.dirname(currentDir))] loop of
    [findProjectRoot], from the current directory on. *)
Equations? findProjectRoot_loop (fs : Env) (currentDir : jsstring)
    : result jsstring by wf (dirMeasure currentDir) lt :=
  findProjectRoot_loop fs currentDir with inspect (hasParent currentDir) := {
    | exist _ true Hguard =>
        if hasMarker fs currentDir then Return currentDir
        else findProjectRoot_loop fs (path.dirname currentDir)
    | exist _ false _ => Throw (Error notFoundMessage) }.
Proof. apply dirname_decreases. exact Hguard. Qed.

(** [findProjectRoot(startDir?)]: [startDir || process.cwd()] takes the
    working directory when [startDir] is absent or empty. *)
Definition findProjectRoot (fs : Env) (startDir : option jsstring)
    : result jsstring :=
  let currentDir :=
    match startDir with
    | Some d => if JsString.falsy d then cwd fs else d
    | None => cwd fs
    end in
  findProjectRoot_loop fs currentDir.

(** [isProjectRoot(dir)] *)
Definition isProjectRoot (fs : Env) (dir : jsstring) : bool :=
  match findProjectRoot fs (Some dir) with
  | Return _ => true
  | Throw _ => false
  end.

(* ================================================================== *)
(** * index.ts: the runtime validators                                 *)
(* ================================================================== *)

(** The values a caller can pass where the signature says [string]:
    the type is not checked at run time, and the tests pass [null]. *)
Inductive JsValue : Type :=
| JsUndefined
| JsNull
| JsStr (s : jsstring).

(** [message || fallback] for an optional string. *)
Definition orDefault (message : option jsstring) (fallback : jsstring)
    : jsstring :=
  match message with
  | Some m => if JsString.falsy m then fallback else m
  | None => fallback
  end.

(** The character class of the forbidden-character regular expression:
    the seven punctuation characters and the controls 0x00 to 0x1f. *)
Definition invalidChar (c : N) : bool :=
  ((c =? 60) || (c =? 62) || (c =? 58) || (c =? 34) || (c =? 124)
   || (c =? 63) || (c =? 42) || (c <=? 31))%N.

(** [invalidChars.test(s)]: some code unit of [s] is in the class. *)
Definition invalidChars_test (s : jsstring) : bool := existsb invalidChar s.

(** [getProjectRoot()] *)
Definition getProjectRoot (fs : Env) : result jsstring :=
  findProjectRoot fs None.

(** [validatePath(pathStr, errorMessage)] *)
Definition validatePath (fs : Env) (pathStr : JsValue) (errorMessage : jsstring)
    : result unit :=
  match pathStr with
  | JsStr s =>
    if JsString.falsy (JsString.trim s) then Throw (Error errorMessage)
    else if invalidChars_test s then
      Throw (Error (errorMessage ++ js ": contains invalid characters"))
    else if JsString.startsWith s (js "./") || JsString.startsWith s (js "../")
    then
      root <- getProjectRoot fs ;;
      let resolvedPath := path.resolve (cwd fs) [root; s] in
      projectRoot <- getProjectRoot fs ;;
      if negb (JsString.startsWith resolvedPath projectRoot) then
        Throw (Error (errorMessage ++ js ": path escapes project root"))
      else Return tt
    else Return tt
  | _ => Throw (Error errorMessage)
  end.

Definition FilePath (fs : Env) (pathStr : JsValue)
    (errorMessage : option jsstring) : result JsValue :=
  _ <- validatePath fs pathStr (orDefault errorMessage (js "Invalid file path")) ;;
  Return pathStr.

Definition FolderPath (fs : Env) (pathStr : JsValue)
    (errorMessage : option jsstring) : result JsValue :=
  _ <- validatePath fs pathStr (orDefault errorMessage (js "Invalid folder path")) ;;
  Return pathStr.

Definition AnyPath (fs : Env) (pathStr : JsValue)
    (errorMessage : option jsstring) : result JsValue :=
  _ <- validatePath fs pathStr (orDefault errorMessage (js "Invalid path")) ;;
  Return pathStr.

(** The three entry points with their default messages. *)
Inductive Validator : Type := VFile | VFolder | VAny.

Definition runValidator (v : Validator)
    : Env -> JsValue -> option jsstring -> result JsValue :=
  match v with
  | VFile => FilePath
  | VFolder => FolderPath
  | VAny => AnyPath
  end.

Definition defaultMessage (v : Validator) : jsstring :=
  match v with
  | VFile => js "Invalid file path"
  | VFolder => js "Invalid folder path"
  | VAny => js "Invalid path"
  end.

(* ================================================================== *)
(** * linter.ts: the static path checker                               *)
(* ================================================================== *)

(** [ts.EntityName]: an identifier, or a qualified name [left.right].
    The parser only builds qualified names whose [right] is an
    identifier; the code recurses on [right] whatever it is, and so
    does the model. *)
Inductive EntityName : Type :=
| Identifier (text : jsstring)
| QualifiedName (left : EntityName) (right : EntityName).

(** Syntax tree nodes, with their children in [ts.forEachChild] order.
    A variable declaration has a name, an optional type annotation and
    an optional initializer (its exclamation token has no children and
    is left out).  A string literal carries its [text] and the span
    [getStart()], [getWidth()] report.  A type reference carries its
    name, which holds identifiers only, and its type arguments; a
    keyword type such as [string] is a leaf.  Every other kind of node,
    type nodes included, is given by its children. *)
#[warnings="-register-all"]
Inductive Node : Type :=
| VariableDeclaration (name : Node) (type : option Node)
                      (initializer : option Node)
| StringLiteral (text : jsstring) (start width : Z)
| TypeReferenceNode (typeName : EntityName) (typeArguments : list Node)
| KeywordTypeNode (keyword : jsstring)
| OtherNode (children : list Node).

(** [ts.TypeNode]: a type annotation is a node like any other. *)
Definition TypeNode : Type := Node.

Record SourceFile : Type := mkSourceFile {
  fileName : jsstring;
  isDeclarationFile : bool;
  sourceNode : Node
}.

(** [ts.Program], by the two methods the code calls:
    [getSourceFiles()] and [getSourceFile(fileName)], the compiler's
    own lookup, which resolves the name the way the host does;
    [None] is [undefined]. *)
Record Program : Type := mkProgram {
  getSourceFiles : list SourceFile;
  getSourceFile : jsstring -> option SourceFile
}.

Module DiagnosticCategory.
Inductive t : Type := Warning | Error | Suggestion | Message.
End DiagnosticCategory.

Record Diagnostic : Type := mkDiagnostic {
  category : DiagnosticCategory.t;
  code : Z;
  messageText : jsstring;
  file : SourceFile;
  start : Z;
  length : Z
}.

Inductive Severity : Type := sev_error | sev_warn | sev_off.

Record LinterOptions : Type := mkOptions {
  severity : option Severity
}.

Record PathLinter : Type := mkLinter {
  program : Program;
  projectRoot : jsstring;
  options : LinterOptions
}.

(** [new PathLinter(program, options)]: the project root is resolved
    once, here; [{ severity: 'error', ...options }] fills in the
    default.  The [checker] field is never read and is left out. *)
Definition newPathLinter (fs : Env) (program : Program) (options : LinterOptions)
    : result PathLinter :=
  root <- findProjectRoot fs None ;;
  Return (mkLinter program root
            (mkOptions (match severity options with
                        | Some s => Some s
                        | None => Some sev_error
                        end))).

(** [getTypeNameFromAST(typeName)] *)
Fixpoint getTypeNameFromAST (typeName : EntityName) : jsstring :=
  match typeName with
  | Identifier text => text
  | QualifiedName _ right_ => getTypeNameFromAST right_
  end.

(** [isPathType(typeNode)] *)
Definition isPathType (typeNode : TypeNode) : bool :=
  match typeNode with
  | TypeReferenceNode typeName _ =>
    let name := getTypeNameFromAST typeName in
    JsString.eqb name (js "FilePathStr")
    || JsString.eqb name (js "FolderPathStr")
    || JsString.eqb name (js "AnyPathStr")
  | _ => false
  end.

(** [fullPath] of [isValidPath]. *)
Definition fullPathOf (fs : Env) (root pathValue : jsstring) : jsstring :=
  if path.isAbsolute pathValue then pathValue
  else path.resolve (cwd fs) [root; pathValue].

(** [isValidPath(pathValue)] *)
Definition isValidPath (fs : Env) (linter : PathLinter) (pathValue : jsstring)
    : bool :=
  if JsString.falsy pathValue then false
  else if invalidChars_test pathValue then false
  else
    let fullPath := fullPathOf fs (projectRoot linter) pathValue in
    let relativePath := path.relative (cwd fs) (projectRoot linter) fullPath in
    if JsString.startsWith relativePath (js "..") || path.isAbsolute relativePath
    then false
    else existsSync fs fullPath.

(** [getSeverityCategory()] *)
Definition getSeverityCategory (linter : PathLinter) : DiagnosticCategory.t :=
  match severity (options linter) with
  | Some sev_warn => DiagnosticCategory.Warning
  | Some sev_off => DiagnosticCategory.Suggestion
  | Some sev_error | None => DiagnosticCategory.Error
  end.

Definition DQUOTE : N := 34.

(** The message of the one diagnostic the checker produces. *)
Definition invalidPathMessage (pathValue : jsstring) : jsstring :=
  js "Invalid path: " ++ [DQUOTE] ++ pathValue ++ [DQUOTE]
  ++ js " does not exist or is not accessible".

(** [checkVariableDeclaration(node)] for a declaration of [sourceFile]
    with annotation [type] and initializer [initializer].  The trees of
    a program are bound to their files, so [node.getSourceFile()] is
    the file being checked. *)
Definition checkVariableDeclaration (fs : Env) (linter : PathLinter)
    (sourceFile : SourceFile) (type : option TypeNode) (initializer : Node)
    : option Diagnostic :=
  match initializer with
  | StringLiteral pathValue litStart litWidth =>
    match type with
    | None => None
    | Some typeNode =>
      if negb (isPathType typeNode) then None
      else if negb (isValidPath fs linter pathValue) then
        Some (mkDiagnostic (getSeverityCategory linter) 1001
                (invalidPathMessage pathValue) sourceFile litStart litWidth)
      else None
    end
  | _ => None
  end.

(** [visit(node)] of [checkFile]: the diagnostics array is threaded
    through, a declaration pushes before its children (name, type
    annotation, initializer) are visited. *)
Fixpoint visit (fs : Env) (linter : PathLinter) (sourceFile : SourceFile)
    (node : Node) (diagnostics : list Diagnostic) {struct node}
    : list Diagnostic :=
  match node with
  | VariableDeclaration name type initializer =>
    let diagnostics :=
      match initializer with
      | Some init =>
        match checkVariableDeclaration fs linter sourceFile type init with
        | Some diagnostic => diagnostics ++ [diagnostic]
        | None => diagnostics
        end
      | None => diagnostics
      end in
    let diagnostics := visit fs linter sourceFile name diagnostics in
    let diagnostics :=
      match type with
      | Some typeNode => visit fs linter sourceFile typeNode diagnostics
      | None => diagnostics
      end in
    match initializer with
    | Some init => visit fs linter sourceFile init diagnostics
    | None => diagnostics
    end
  | StringLiteral _ _ _ => diagnostics
  | KeywordTypeNode _ => diagnostics
  | TypeReferenceNode _ children
  | OtherNode children =>
    (fix forEachChild (cs : list Node) (diagnostics : list Diagnostic)
       : list Diagnostic :=
       match cs with
       | [] => diagnostics
       | c :: cs' =>
         forEachChild cs' (visit fs linter sourceFile c diagnostics)
       end) children diagnostics
  end.

(** [checkFile(sourceFile)] *)
Definition checkFile (fs : Env) (linter : PathLinter) (sourceFile : SourceFile)
    : list Diagnostic :=
  visit fs linter sourceFile (sourceNode sourceFile) [].

(** The loop of [run()] over the source files. *)
Fixpoint run_loop (fs : Env) (linter : PathLinter) (files : list SourceFile)
    (diagnostics : list Diagnostic) : list Diagnostic :=
  match files with
  | [] => diagnostics
  | sourceFile :: files' =>
    run_loop fs linter files'
      (if negb (isDeclarationFile sourceFile)
       then diagnostics ++ checkFile fs linter sourceFile
       else diagnostics)
  end.

(** [run()] *)
Definition run (fs : Env) (linter : PathLinter) : list Diagnostic :=
  run_loop fs linter (getSourceFiles (program linter)) [].

(* ================================================================== *)
(** * linter.ts: the language-service plugin                           *)
(* ================================================================== *)

(** The value of a property of a language-service object: the two
    methods the plugin calls, or anything else.  [getProgram] is given
    by what calling it does: it throws, or returns a program or
    [undefined]. *)
Inductive JsProp : Type :=
| PropUndefined
| PropGetProgram (call : result (option Program))
| PropDiagnosticsFn (f : jsstring -> result (list Diagnostic))
| PropOther (id : N).

(** A language-service object, by what reading a property gives. *)
Definition LanguageService : Type := jsstring -> JsProp.

(** [Reflect.get(target, prop)] *)
Definition Reflect_get (target : LanguageService) (prop : jsstring) : JsProp :=
  target prop.

(** [languageService.getProgram()!] followed by a member access: an
    exception of the method comes out as it is, a missing method or an
    undefined program raises a [TypeError]. *)
Definition callGetProgram (languageService : LanguageService)
    : result Program :=
  match languageService (js "getProgram") with
  | PropGetProgram call =>
    program <- call ;;
    match program with
    | Some program => Return program
    | None => Throw TypeError
    end
  | _ => Throw TypeError
  end.

(** [target.getSemanticDiagnostics(fileName)] *)
Definition callGetSemanticDiagnostics (target : LanguageService)
    (name : jsstring) : result (list Diagnostic) :=
  match target (js "getSemanticDiagnostics") with
  | PropDiagnosticsFn f => f name
  | _ => Throw TypeError
  end.

(** The arrow function the proxy returns for [getSemanticDiagnostics]. *)
Definition interceptedDiagnostics (fs : Env) (linter : PathLinter)
    (target : LanguageService) (name : jsstring)
    : result (list Diagnostic) :=
  originalDiagnostics <- callGetSemanticDiagnostics target name ;;
  program <- callGetProgram target ;;
  match getSourceFile program name with
  | None => Return originalDiagnostics
  | Some sourceFile =>
    let customDiagnostics := checkFile fs linter sourceFile in
    Return (originalDiagnostics ++ customDiagnostics)
  end.

(** The [get(target, prop)] trap of the proxy. *)
Definition proxy_get (fs : Env) (linter : PathLinter)
    (target : LanguageService) (prop : jsstring) : JsProp :=
  if JsString.eqb prop (js "getSemanticDiagnostics") then
    PropDiagnosticsFn (interceptedDiagnostics fs linter target)
  else Reflect_get target prop.

(** [createPathLinterPlugin(options).create(info)], with
    [languageService] standing for [info.languageService]. *)
Definition createPathLinterPlugin (fs : Env) (options : LinterOptions)
    (languageService : LanguageService) : result LanguageService :=
  program <- callGetProgram languageService ;;
  linter <- newPathLinter fs program options ;;
  Return (proxy_get fs linter languageService).

(* ================================================================== *)
(** * Notions the properties are stated with                           *)
(* ================================================================== *)

(** [p] lies in the directory subtree of [root], for normalized
    absolute paths: it is [root] or continues [root] below a
    separator. *)
Definition withinSubtree (root p : jsstring) : bool :=
  JsString.eqb p root
  || JsString.startsWith p
       (if JsString.charCodeIs root (JsString.length root - 1)
             path.CHAR_FORWARD_SLASH
        then root else root ++ js "/").

(** The candidate begins with [./] or [../]. *)
Definition dotRelative (s : jsstring) : bool :=
  JsString.startsWith s (js "./") || JsString.startsWith s (js "../").

(** The segments of a type name, left to right. *)
Fixpoint segmentsOf (typeName : EntityName) : list jsstring :=
  match typeName with
  | Identifier text => [text]
  | QualifiedName l r => segmentsOf l ++ segmentsOf r
  end.

Definition markerNames : list jsstring :=
  [js "FilePathStr"; js "FolderPathStr"; js "AnyPathStr"].

(** The simple name an annotation declares: the rightmost segment of a
    type reference; other annotations declare none. *)
Definition declaredName (type : option TypeNode) : option jsstring :=
  match type with
  | Some (TypeReferenceNode typeName _) =>
    Some (last (segmentsOf typeName) [])
  | _ => None
  end.

(** The root-relative path leaves the root: it is [..] or goes
    through [..]. *)
Definition leavesRoot (relativePath : jsstring) : bool :=
  JsString.eqb relativePath (js "..")
  || JsString.startsWith relativePath (js "../")
  || path.isAbsolute relativePath.

(** The root-relative path stays below the root but its first name
    begins with two dots, as in [..cache]. *)
Definition dotDotName (relativePath : jsstring) : bool :=
  JsString.startsWith relativePath (js "..")
  && negb (JsString.eqb relativePath (js ".."))
  && negb (JsString.startsWith relativePath (js "../")).

(** The same diagnostic under another category. *)
Definition withCategory (c : DiagnosticCategory.t) (d : Diagnostic)
    : Diagnostic :=
  mkDiagnostic c (code d) (messageText d) (file d) (start d) (length d).

(** The category a severity setting maps to. *)
Definition categoryOf (sev : Severity) : DiagnosticCategory.t :=
  match sev with
  | sev_error => DiagnosticCategory.Error
  | sev_warn => DiagnosticCategory.Warning
  | sev_off => DiagnosticCategory.Suggestion
  end.

(** The [k]-th ancestor of a directory, by [path.dirname]. *)
Definition ancestor (k : nat) (dir : jsstring) : jsstring :=
  Nat.iter k path.dirname dir.

(** The root-relative path [isValidPath] computes for a literal. *)
Definition relativePathOf (fs : Env) (root pathValue : jsstring) : jsstring :=
  path.relative (cwd fs) root (fullPathOf fs root pathValue).

(** The literal fails the forbidden-character check, resolves outside
    the project root, or does not exist. *)
Definition failsListedCheck (fs : Env) (root pathValue : jsstring) : Prop :=
  invalidChars_test pathValue = true
  \/ leavesRoot (relativePathOf fs root pathValue) = true
  \/ existsSync fs (fullPathOf fs root pathValue) = false.

(** The diagnostic reported for a literal with the given span. *)
Definition diagnosticFor (linter : PathLinter) (sourceFile : SourceFile)
    (pathValue : jsstring) (litStart litWidth : Z) : Diagnostic :=
  mkDiagnostic (getSeverityCategory linter) 1001
    (invalidPathMessage pathValue) sourceFile litStart litWidth.

(** Structural induction on syntax trees, through the lists of
    children. *)
Section NodeInduction.
Variable P : Node -> Prop.

(** [P] holds of an optional child. *)
Definition optionalChild (child : option Node) : Prop :=
  match child with
  | Some node => P node
  | None => True
  end.

Hypothesis Hdeclaration : forall name type init,
    P name -> optionalChild type -> optionalChild init ->
    P (VariableDeclaration name type init).
Hypothesis Hliteral : forall text litStart litWidth,
    P (StringLiteral text litStart litWidth).
Hypothesis Hreference : forall typeName typeArguments,
    Forall P typeArguments -> P (TypeReferenceNode typeName typeArguments).
Hypothesis Hkeyword : forall keyword, P (KeywordTypeNode keyword).
Hypothesis Hother : forall children,
    Forall P children -> P (OtherNode children).

Fixpoint Node_tree_ind (node : Node) : P node :=
  match node with
  | VariableDeclaration name type init =>
    Hdeclaration name type init (Node_tree_ind name)
      (match type as child return optionalChild child with
       | Some typeNode => Node_tree_ind typeNode
       | None => I
       end)
      (match init as child return optionalChild child with
       | Some initNode => Node_tree_ind initNode
       | None => I
       end)
  | StringLiteral text litStart litWidth =>
    Hliteral text litStart litWidth
  | TypeReferenceNode typeName typeArguments =>
    Hreference typeName typeArguments
      ((fix all (cs : list Node) : Forall P cs :=
          match cs with
          | [] => @Forall_nil Node P
          | c :: cs' => @Forall_cons Node P c cs' (Node_tree_ind c) (all cs')
          end) typeArguments)
  | KeywordTypeNode keyword => Hkeyword keyword
  | OtherNode children =>
    Hother children
      ((fix all (cs : list Node) : Forall P cs :=
          match cs with
          | [] => @Forall_nil Node P
          | c :: cs' => @Forall_cons Node P c cs' (Node_tree_ind c) (all cs')
          end) children)
  end.
End NodeInduction.

(** Hosts used in the examples. *)
Definition hostProj : Env :=
  fsOf (js "/home/proj")
       [js "/home/proj"; js "/home/proj/package.json";
        js "/home/proj/src"; js "/home/proj/src/index.ts"].

Definition hostRootOnly : Env :=
  fsOf (js "/") [js "/"; js "/package.json"].

(** A program over the given files, for the examples: the lookup
    resolves the name against the working directory of [hostProj], as
    the compiler does against its current directory. *)
Definition programOf (files : list SourceFile) : Program :=
  mkProgram files
    (fun name =>
       find (fun sourceFile =>
               JsString.eqb
                 (path.resolve (js "/home/proj") [fileName sourceFile])
                 (path.resolve (js "/home/proj") [name]))
            files).

(** A checker for [hostProj] and a source file to report against. *)
Definition linterProj : PathLinter :=
  mkLinter (programOf []) (js "/home/proj") (mkOptions (Some sev_error)).

Definition fileTest : SourceFile :=
  mkSourceFile (js "test.ts") false (OtherNode []).

(** [const invalidPath: FilePathStr = 'src/nonexistent-file.ts';] *)
Definition fileBadLiteral : SourceFile :=
  mkSourceFile (js "bad.ts") false
    (OtherNode
       [OtherNode
          [VariableDeclaration (OtherNode [])
             (Some (TypeReferenceNode (Identifier (js "FilePathStr")) []))
             (Some (StringLiteral (js "src/nonexistent-file.ts") 40 25))]]).

(** A diagnostic of the wrapped service. *)
Definition hostDiagnostic : Diagnostic :=
  mkDiagnostic DiagnosticCategory.Error 2322 (js "Type mismatch")
    fileBadLiteral 5 7.

(** A language service over [fileBadLiteral] that reports
    [hostDiagnostic] for every file. *)
Definition serviceDemo : LanguageService :=
  fun prop =>
    if JsString.eqb prop (js "getProgram") then
      PropGetProgram (Return (Some (programOf [fileBadLiteral])))
    else if JsString.eqb prop (js "getSemanticDiagnostics") then
      PropDiagnosticsFn (fun _ => Return [hostDiagnostic])
    else if JsString.eqb prop (js "dispose") then PropOther 1
    else PropUndefined.

(** The wrapper the plugin builds around [serviceDemo] on [hostProj]. *)
Definition proxyDemo : LanguageService :=
  proxy_get hostProj
    (mkLinter (programOf [fileBadLiteral]) (js "/home/proj")
       (mkOptions (Some sev_error)))
    serviceDemo.

(** A declaration [const p: T = 'literal';] alone in a file. *)
Definition fileWith (type : TypeNode) (literal : jsstring) : SourceFile :=
  mkSourceFile (js "test.ts") false
    (OtherNode
       [OtherNode
          [VariableDeclaration (OtherNode []) (Some type)
             (Some (StringLiteral literal 40 (JsString.length literal + 2)))]]).

Definition linterFor (sourceFile : SourceFile) (sev : option Severity)
    : result PathLinter :=
  newPathLinter hostProj (programOf [sourceFile]) (mkOptions sev).

Definition runOn (sourceFile : SourceFile) (sev : option Severity)
    : result (list Diagnostic) :=
  linter <- linterFor sourceFile sev ;; Return (run hostProj linter).

Definition FilePathStr : TypeNode :=
  TypeReferenceNode (Identifier (js "FilePathStr")) [].

(** The directory the walk of [findProjectRoot] starts from:
    [startDir || process.cwd()]. *)
Definition startOf (fs : Env) (startDir : option jsstring) : jsstring :=
  match startDir with
  | Some d => if JsString.falsy d then cwd fs else d
  | None => cwd fs
  end.

(** The variable declarations with an initializer at or below a node,
    each with its annotation and initializer, in the order [visit]
    meets them: a declaration, then those in its name, in its type
    annotation and in its initializer. *)
Fixpoint declarationsOf (node : Node) : list (option TypeNode * Node) :=
  match node with
  | VariableDeclaration name type init =>
    match init with
    | Some initNode => [(type, initNode)]
    | None => []
    end
    ++ declarationsOf name
    ++ match type with
       | Some typeNode => declarationsOf typeNode
       | None => []
       end
    ++ match init with
       | Some initNode => declarationsOf initNode
       | None => []
       end
  | StringLiteral _ _ _ => []
  | KeywordTypeNode _ => []
  | TypeReferenceNode _ children
  | OtherNode children =>
    (fix below (cs : list Node) : list (option TypeNode * Node) :=
       match cs with
       | [] => []
       | c :: cs' => declarationsOf c ++ below cs'
       end) children
  end.

(** What one declaration contributes to the diagnostics. *)
Definition reportOf (fs : Env) (linter : PathLinter) (sourceFile : SourceFile)
    (declaration : option TypeNode * Node) : list Diagnostic :=
  match checkVariableDeclaration fs linter sourceFile
          (fst declaration) (snd declaration) with
  | Some diagnostic => [diagnostic]
  | None => []
  end.

(** [hostProj] with other files beside the same marker. *)
Definition hostProjBare : Env :=
  fsOf (js "/home/proj") [js "/home/proj/package.json"; js "/home/proj/README.md"].

(** A host with no marker anywhere. *)
Definition hostNoProject : Env :=
  fsOf (js "/tmp/scratch") [js "/tmp/scratch/notes.txt"].

(** A declaration file with the declaration of [fileBadLiteral]. *)
Definition fileDeclarations : SourceFile :=
  mkSourceFile (js "types.d.ts") true (sourceNode fileBadLiteral).

(** [const f = () => { const p: FilePathStr = 'src/nonexistent-file.ts'; }]:
    a declaration inside the initializer of another. *)
Definition nodeNested : Node :=
  VariableDeclaration (OtherNode []) None
    (Some (OtherNode
             [OtherNode
                [VariableDeclaration (OtherNode [])
                   (Some (TypeReferenceNode (Identifier (js "FilePathStr")) []))
                   (Some (StringLiteral (js "src/nonexistent-file.ts") 60 25))]])).

(** [const v: Box<...> = 'x';] where the type argument holds, after a
    parse with errors, a declaration of its own:
    [const p: FilePathStr = 'src/nonexistent-file.ts']. *)
Definition nodeInAnnotation : Node :=
  VariableDeclaration (OtherNode [])
    (Some (TypeReferenceNode (Identifier (js "Box"))
             [OtherNode
                [VariableDeclaration (OtherNode [])
                   (Some (TypeReferenceNode (Identifier (js "FilePathStr")) []))
                   (Some (StringLiteral (js "src/nonexistent-file.ts") 70 25))]]))
    (Some (StringLiteral (js "x") 120 3)).

(** Closed facts are settled by evaluation. *)
Ltac replay := vm_compute; reflexivity.

(* ================================================================== *)
(** * Strings: basic facts                                             *)
(* ================================================================== *)

Lemma eqb_eq (a b : jsstring) : JsString.eqb a b = true <-> a = b.
Proof.
  revert b. induction a as [|x a IH]; intros [|y b]; simpl;
    try (split; [discriminate | intros H; discriminate H]);
    [split; reflexivity|].
  rewrite andb_true_iff, N.eqb_eq, IH.
  split; [intros [-> ->]; reflexivity | intros H; injection H; auto].
Qed.

Lemma eqb_refl (a : jsstring) : JsString.eqb a a = true.
Proof. apply eqb_eq. reflexivity. Qed.

Lemma falsy_true_iff (s : jsstring) : JsString.falsy s = true <-> s = [].
Proof. destruct s; simpl; split; congruence. Qed.

Lemma startsWith_trans (s a b : jsstring) :
  JsString.startsWith s a = true -> JsString.startsWith a b = true ->
  JsString.startsWith s b = true.
Proof.
  revert s a. induction b as [|z b IH]; intros s a Hsa Hab; [reflexivity|].
  destruct a as [|y a]; [discriminate Hab|].
  destruct s as [|x s]; [discriminate Hsa|].
  simpl in *. apply andb_true_iff in Hsa, Hab.
  destruct Hsa as [Hxy Hsa], Hab as [Hyz Hab].
  apply N.eqb_eq in Hxy, Hyz. subst.
  rewrite N.eqb_refl. simpl. eapply IH; eassumption.
Qed.

(** [trimStart] stops at the first code unit that is not white space. *)
Lemma trimStart_head (s : jsstring) :
  JsString.trimStart s = []
  \/ exists c t, JsString.trimStart s = c :: t /\ JsString.isWhiteSpace c = false.
Proof.
  induction s as [|c s IH]; simpl; [left; reflexivity|].
  destruct (JsString.isWhiteSpace c) eqn:Hc; [exact IH|].
  right. exists c, s. split; [reflexivity | exact Hc].
Qed.

Lemma trimStart_nil_iff (s : jsstring) :
  JsString.trimStart s = [] <-> forallb JsString.isWhiteSpace s = true.
Proof.
  induction s as [|c s IH]; simpl; [split; reflexivity|].
  destruct (JsString.isWhiteSpace c); simpl; [exact IH|].
  split; discriminate.
Qed.

Lemma forallb_rev (f : N -> bool) (s : jsstring) :
  forallb f (rev s) = forallb f s.
Proof.
  destruct (forallb f s) eqn:H.
  - apply forallb_forall. intros x Hx. apply in_rev in Hx.
    rewrite forallb_forall in H. auto.
  - destruct (forallb f (rev s)) eqn:H'; [|reflexivity].
    rewrite <- H. symmetry. apply forallb_forall. intros x Hx.
    rewrite forallb_forall in H'. apply H'. apply in_rev.
    rewrite rev_involutive. exact Hx.
Qed.

(** [s.trim()] is empty exactly when [s] is made of white space only. *)
Lemma trim_nil_iff (s : jsstring) :
  JsString.trim s = [] <-> forallb JsString.isWhiteSpace s = true.
Proof.
  unfold JsString.trim, JsString.trimEnd. split.
  - intros H.
    assert (Hr : JsString.trimStart (rev (JsString.trimStart s)) = []).
    { rewrite <- (rev_involutive (JsString.trimStart _)). rewrite H.
      reflexivity. }
    apply trimStart_nil_iff in Hr. rewrite forallb_rev in Hr.
    destruct (trimStart_head s) as [Hs | (c & t & Hs & Hc)].
    + apply trimStart_nil_iff. exact Hs.
    + rewrite Hs in Hr. simpl in Hr. rewrite Hc in Hr. discriminate Hr.
  - intros H. apply trimStart_nil_iff in H. rewrite H. reflexivity.
Qed.

Lemma trim_falsy_false (s : jsstring) (c : N) :
  In c s -> JsString.isWhiteSpace c = false ->
  JsString.falsy (JsString.trim s) = false.
Proof.
  intros Hin Hc. destruct (JsString.falsy (JsString.trim s)) eqn:H;
    [|reflexivity].
  apply falsy_true_iff, trim_nil_iff in H.
  rewrite forallb_forall in H. rewrite (H c Hin) in Hc. discriminate Hc.
Qed.

(** A candidate that begins with [./] or [../] contains a dot, which
    is not white space. *)
Lemma dotRelative_not_blank (s : jsstring) :
  dotRelative s = true -> JsString.falsy (JsString.trim s) = false.
Proof.
  intros H. apply trim_falsy_false with (c := 46%N); [|reflexivity].
  unfold dotRelative in H. destruct s as [|x s]; [discriminate H|].
  simpl in H. destruct (N.eqb_spec x 46) as [->|Hx]; [left; reflexivity|].
  simpl in H. discriminate H.
Qed.

(* ================================================================== *)
(** * The validators: shared facts                                     *)
(* ================================================================== *)

Lemma runValidator_eq (v : Validator) (fs : Env) (x : JsValue)
    (msg : option jsstring) :
  runValidator v fs x msg =
  (_ <- validatePath fs x (orDefault msg (defaultMessage v)) ;; Return x).
Proof. destruct v; reflexivity. Qed.

(** The three outcomes of the checks that need no project root. *)
Lemma validatePath_prefix_checks (fs : Env) (s m : jsstring) :
  validatePath fs (JsStr s) m =
  if JsString.falsy (JsString.trim s) then Throw (Error m)
  else if invalidChars_test s then
    Throw (Error (m ++ js ": contains invalid characters"))
  else if dotRelative s then
    root <- getProjectRoot fs ;;
    if negb (JsString.startsWith (path.resolve (cwd fs) [root; s]) root)
    then Throw (Error (m ++ js ": path escapes project root"))
    else Return tt
  else Return tt.
Proof.
  unfold validatePath, dotRelative.
  destruct (JsString.falsy (JsString.trim s)); [reflexivity|].
  destruct (invalidChars_test s); [reflexivity|].
  destruct (JsString.startsWith s (js "./") || JsString.startsWith s (js "../"));
    [|reflexivity].
  destruct (getProjectRoot fs); reflexivity.
Qed.

(* ================================================================== *)
(** * Properties of the validators                                     *)
(* ================================================================== *)

(** C4.  A string that contains one of the characters
    [< > : | ? *], a double quote or a control character 0x00-0x1f is
    rejected by each of the three validators: the call throws, with
    the invalid-characters message, or with the plain message when the
    string is white space only. *)
Theorem forbidden_character_rejected :
  forall (fs : Env) (v : Validator) (s : jsstring) (msg : option jsstring)
         (c : N),
    In c s -> invalidChar c = true ->
    runValidator v fs (JsStr s) msg =
      Throw (Error (orDefault msg (defaultMessage v)
                    ++ js ": contains invalid characters"))
    \/ (forallb JsString.isWhiteSpace s = true
        /\ runValidator v fs (JsStr s) msg =
             Throw (Error (orDefault msg (defaultMessage v)))).
Proof.
  intros fs v s msg c Hin Hc.
  rewrite runValidator_eq, validatePath_prefix_checks.
  destruct (JsString.falsy (JsString.trim s)) eqn:Hblank.
  - right. split; [|reflexivity].
    apply trim_nil_iff, falsy_true_iff. exact Hblank.
  - left.
    assert (Ht : invalidChars_test s = true).
    { apply existsb_exists. exists c. split; assumption. }
    rewrite Ht. reflexivity.
Qed.

Lemma forbidden_character_rejected_witness :
  FilePath hostProj (JsStr (js "path/with/invalid<chars")) None =
    Throw (Error (js "Invalid file path" ++ js ": contains invalid characters"))
  \/ (forallb JsString.isWhiteSpace (js "path/with/invalid<chars") = true
      /\ FilePath hostProj (JsStr (js "path/with/invalid<chars")) None =
           Throw (Error (js "Invalid file path"))).
Proof.
  apply (forbidden_character_rejected hostProj VFile
           (js "path/with/invalid<chars") None 60%N).
  - vm_compute. tauto.
  - reflexivity.
Defined.

(** C10.  A string made of white space only, control characters
    0x09-0x0d included, is rejected by each validator with the plain
    message, supplied or default: the emptiness check on the trimmed
    string runs before the forbidden-character check, although those
    control characters are forbidden characters too. *)
Theorem blank_rejected_with_plain_message :
  forall (fs : Env) (v : Validator) (s : jsstring) (msg : option jsstring),
    s <> [] ->
    forallb JsString.isWhiteSpace s = true ->
    runValidator v fs (JsStr s) msg =
      Throw (Error (orDefault msg (defaultMessage v)))
    /\ (forall c, (9 <= c <= 13)%N ->
          JsString.isWhiteSpace c = true /\ invalidChar c = true).
Proof.
  intros fs v s msg _ Hws. split.
  - rewrite runValidator_eq, validatePath_prefix_checks.
    apply trim_nil_iff in Hws. rewrite Hws. reflexivity.
  - intros c [Hlo Hhi]. unfold JsString.isWhiteSpace, invalidChar.
    apply N.leb_le in Hlo. rewrite Hlo.
    assert (H13 : (c <=? 13)%N = true) by (apply N.leb_le; exact Hhi).
    assert (H31 : (c <=? 31)%N = true) by (apply N.leb_le; lia).
    rewrite H13, H31. rewrite !orb_true_r. split; reflexivity.
Qed.

Lemma blank_rejected_with_plain_message_witness :
  FolderPath hostProj (JsStr [9; 32]%N) (Some (js "Custom error")) =
    Throw (Error (js "Custom error"))
  /\ (forall c, (9 <= c <= 13)%N ->
        JsString.isWhiteSpace c = true /\ invalidChar c = true).
Proof.
  apply (blank_rejected_with_plain_message hostProj VFolder
           [9; 32]%N (Some (js "Custom error"))).
  - discriminate.
  - reflexivity.
Defined.

(** C5, refuted as stated.  The one-space string is non-empty, has no
    forbidden character and does not begin with [./] or [../], and the
    three validators reject it. *)
Lemma one_space_rejected :
  js " " <> []
  /\ invalidChars_test (js " ") = false
  /\ dotRelative (js " ") = false
  /\ FilePath hostProj (JsStr (js " ")) None =
       Throw (Error (js "Invalid file path"))
  /\ FolderPath hostProj (JsStr (js " ")) None =
       Throw (Error (js "Invalid folder path"))
  /\ AnyPath hostProj (JsStr (js " ")) None =
       Throw (Error (js "Invalid path")).
Proof.
  split; [discriminate|]. repeat split; vm_compute; reflexivity.
Qed.

(** C5, amended.  A string that is not empty after trimming white
    space, has no forbidden character and does not begin with [./] or
    [../] is accepted by each of the three validators and returned
    unchanged, whatever the file system holds. *)
Theorem clean_candidate_accepted :
  forall (fs : Env) (v : Validator) (s : jsstring) (msg : option jsstring),
    JsString.trim s <> [] ->
    invalidChars_test s = false ->
    dotRelative s = false ->
    runValidator v fs (JsStr s) msg = Return (JsStr s).
Proof.
  intros fs v s msg Htrim Hchars Hdot.
  rewrite runValidator_eq, validatePath_prefix_checks.
  destruct (JsString.falsy (JsString.trim s)) eqn:Hblank.
  - apply falsy_true_iff in Hblank. contradiction.
  - rewrite Hchars, Hdot. reflexivity.
Qed.

Lemma clean_candidate_accepted_witness :
  FilePath (fsOf (js "/nowhere") []) (JsStr (js "/absolute/path/file.txt")) None
  = Return (JsStr (js "/absolute/path/file.txt")).
Proof.
  apply (clean_candidate_accepted (fsOf (js "/nowhere") []) VFile
           (js "/absolute/path/file.txt") None).
  - vm_compute. discriminate.
  - reflexivity.
  - reflexivity.
Defined.

(** C6, refuted as stated.  [../<] begins with [../] and resolves to
    [/home/<], which does not begin with the project root
    [/home/proj]; the validator fails with the invalid-characters
    message, not with the root-escape one. *)
Lemma escaping_candidate_with_forbidden_character :
  dotRelative (js "../<") = true
  /\ getProjectRoot hostProj = Return (js "/home/proj")
  /\ path.resolve (cwd hostProj) [js "/home/proj"; js "../<"] = js "/home/<"
  /\ JsString.startsWith (js "/home/<") (js "/home/proj") = false
  /\ FilePath hostProj (JsStr (js "../<")) None =
       Throw (Error (js "Invalid file path: contains invalid characters"))
  /\ FilePath hostProj (JsStr (js "../<")) None <>
       Throw (Error (js "Invalid file path: path escapes project root")).
Proof.
  repeat split; try (vm_compute; reflexivity).
  vm_compute. discriminate.
Qed.

(** C6, amended.  A candidate that begins with [./] or [../], has no
    forbidden character, and whose resolution against the project root
    does not begin with the project root path is rejected by each
    validator with the supplied or default message followed by
    [: path escapes project root].  A candidate that begins with
    neither prefix is validated without the project root being looked
    up: the outcome is the same on every host. *)
Theorem escaping_candidate_rejected :
  forall (fs : Env) (v : Validator) (s : jsstring) (msg : option jsstring),
    (forall root,
        dotRelative s = true ->
        invalidChars_test s = false ->
        getProjectRoot fs = Return root ->
        JsString.startsWith (path.resolve (cwd fs) [root; s]) root = false ->
        runValidator v fs (JsStr s) msg =
          Throw (Error (orDefault msg (defaultMessage v)
                        ++ js ": path escapes project root")))
    /\ (dotRelative s = false ->
        forall fs', runValidator v fs (JsStr s) msg =
                    runValidator v fs' (JsStr s) msg).
Proof.
  intros fs v s msg. split.
  - intros root Hdot Hchars Hroot Hesc.
    rewrite runValidator_eq, validatePath_prefix_checks.
    rewrite (dotRelative_not_blank s Hdot), Hchars, Hdot, Hroot.
    simpl. rewrite Hesc. reflexivity.
  - intros Hdot fs'.
    rewrite !runValidator_eq, !validatePath_prefix_checks.
    rewrite Hdot. reflexivity.
Qed.

Lemma escaping_candidate_rejected_witness :
  AnyPath hostProj (JsStr (js "../../../etc/passwd")) None =
    Throw (Error (js "Invalid path" ++ js ": path escapes project root")).
Proof.
  apply (proj1 (escaping_candidate_rejected hostProj VAny
                  (js "../../../etc/passwd") None) (js "/home/proj"));
    vm_compute; reflexivity.
Defined.

(** C1, refuted as stated.  With the project root at [/home/proj], the
    validator accepts the absolute candidate [/etc/passwd], which
    resolves to itself and lies outside the subtree of the root. *)
Lemma absolute_candidate_outside_root_accepted :
  getProjectRoot hostProj = Return (js "/home/proj")
  /\ FilePath hostProj (JsStr (js "/etc/passwd")) None =
       Return (JsStr (js "/etc/passwd"))
  /\ path.resolve (cwd hostProj) [js "/home/proj"; js "/etc/passwd"] =
       js "/etc/passwd"
  /\ withinSubtree (js "/home/proj") (js "/etc/passwd") = false.
Proof. repeat split; vm_compute; reflexivity. Qed.

(** C1, amended.  When one of the three validators accepts a candidate
    that begins with [./] or [../], the project root was found and the
    candidate resolved against it begins with the project root path. *)
Theorem accepted_dot_relative_begins_with_root :
  forall (fs : Env) (v : Validator) (s : jsstring) (msg : option jsstring)
         (r : JsValue),
    dotRelative s = true ->
    runValidator v fs (JsStr s) msg = Return r ->
    r = JsStr s
    /\ exists root,
         getProjectRoot fs = Return root
         /\ JsString.startsWith (path.resolve (cwd fs) [root; s]) root = true.
Proof.
  intros fs v s msg r Hdot Hacc.
  rewrite runValidator_eq, validatePath_prefix_checks in Hacc.
  rewrite (dotRelative_not_blank s Hdot), Hdot in Hacc.
  destruct (invalidChars_test s); [discriminate Hacc|].
  destruct (getProjectRoot fs) as [root|e]; [|discriminate Hacc].
  simpl in Hacc.
  destruct (JsString.startsWith (path.resolve (cwd fs) [root; s]) root)
    eqn:Hpre; simpl in Hacc; [|discriminate Hacc].
  injection Hacc as <-. split; [reflexivity|].
  exists root. split; [reflexivity | exact Hpre].
Qed.

Lemma accepted_dot_relative_begins_with_root_witness :
  JsStr (js "./src/index.ts") = JsStr (js "./src/index.ts")
  /\ exists root,
       getProjectRoot hostProj = Return root
       /\ JsString.startsWith
            (path.resolve (cwd hostProj) [root; js "./src/index.ts"]) root
          = true.
Proof.
  apply (accepted_dot_relative_begins_with_root hostProj VFile
           (js "./src/index.ts") None);
    vm_compute; reflexivity.
Defined.

(* ================================================================== *)
(** * Properties of the project-root resolver                          *)
(* ================================================================== *)

Lemma ancestor_succ (k : nat) (dir : jsstring) :
  ancestor (S k) dir = ancestor k (path.dirname dir).
Proof. unfold ancestor. apply Nat.iter_succ_r. Qed.

Lemma ancestor_fixed (k : nat) (dir : jsstring) :
  hasParent dir = false -> ancestor k dir = dir.
Proof.
  intros H. unfold hasParent in H. apply negb_false_iff, eqb_eq in H.
  induction k as [|k IH]; [reflexivity|].
  unfold ancestor in *. simpl. rewrite IH. symmetry. exact H.
Qed.

(** What the loop computes: the nearest ancestor that holds a marker
    among those that differ from their own parent; the not-found error
    when no such ancestor holds a marker.  The directory that is its
    own parent, where the walk ends, is never looked into. *)
Lemma findProjectRoot_loop_spec (fs : Env) (dir : jsstring) :
  match findProjectRoot_loop fs dir with
  | Return r =>
      exists n, r = ancestor n dir
                /\ hasParent r = true /\ hasMarker fs r = true
                /\ forall k, k < n -> hasMarker fs (ancestor k dir) = false
  | Throw e =>
      e = Error notFoundMessage
      /\ forall k, hasParent (ancestor k dir) = true ->
                   hasMarker fs (ancestor k dir) = false
  end.
Proof.
  funelim (findProjectRoot_loop fs dir).
  - (* the guard holds *)
    destruct (hasMarker fs currentDir) eqn:Hm.
    + exists 0. repeat split; [assumption | assumption | intros k Hk; lia].
    + destruct (findProjectRoot_loop fs (path.dirname currentDir)) as [r|e].
      * destruct H as (n & Hr & Hp & Hmr & Hbelow).
        exists (S n). rewrite ancestor_succ.
        repeat split; try assumption.
        intros [|k] Hk; [exact Hm|].
        rewrite ancestor_succ. apply Hbelow. lia.
      * destruct H as [He Hnone]. split; [exact He|].
        intros [|k] Hk; [exact Hm|].
        rewrite ancestor_succ in *. apply Hnone. exact Hk.
  - (* the directory is its own parent *)
    split; [reflexivity|].
    intros k Hk. rewrite ancestor_fixed in Hk by assumption. congruence.
Qed.

(** The resolver always answers: a root or the not-found error. *)
Lemma findProjectRoot_not_found_only (fs : Env) (startDir : option jsstring)
    (e : JsError) :
  findProjectRoot fs startDir = Throw e -> e = Error notFoundMessage.
Proof.
  unfold findProjectRoot. intros H.
  match type of H with findProjectRoot_loop fs ?d = _ =>
    pose proof (findProjectRoot_loop_spec fs d) as Hspec end.
  rewrite H in Hspec. apply Hspec.
Qed.

(** C3.  The resolver does not test the file-system root.  On a host
    whose root directory [/] holds [package.json], starting at [/]
    itself, or at [/a] whose parent is [/], the resolver fails with the
    not-found error although an ancestor of the start (inclusive) holds
    a marker. *)
Theorem filesystem_root_not_tested :
  path.dirname (js "/") = js "/"
  /\ hasMarker hostRootOnly (js "/") = true
  /\ findProjectRoot hostRootOnly (Some (js "/")) =
       Throw (Error notFoundMessage)
  /\ path.dirname (js "/a") = js "/"
  /\ findProjectRoot hostRootOnly (Some (js "/a")) =
       Throw (Error notFoundMessage)
  /\ isProjectRoot hostRootOnly (js "/") = false.
Proof. repeat split; vm_compute; reflexivity. Qed.

(* ================================================================== *)
(** * Properties of the static path checker                            *)
(* ================================================================== *)

Lemma segmentsOf_nonempty (typeName : EntityName) : segmentsOf typeName <> [].
Proof.
  induction typeName as [text | l IHl r IHr]; simpl; [discriminate|].
  intros H. apply app_eq_nil in H. destruct H as [_ H]. contradiction.
Qed.

Lemma last_app_nonempty (a b : list jsstring) (d : jsstring) :
  b <> [] -> last (a ++ b) d = last b d.
Proof.
  intros Hb. induction a as [|x a IH]; [reflexivity|].
  simpl. destruct (a ++ b) eqn:E; [|exact IH].
  apply app_eq_nil in E. destruct E as [_ E]. contradiction.
Qed.

(** The name the checker reads off a type name is its rightmost
    segment. *)
Lemma getTypeNameFromAST_rightmost (typeName : EntityName) :
  getTypeNameFromAST typeName = last (segmentsOf typeName) [].
Proof.
  induction typeName as [text | l IHl r IHr]; simpl; [reflexivity|].
  rewrite last_app_nonempty by apply segmentsOf_nonempty. exact IHr.
Qed.

(** An annotation is a path type exactly when it is a type reference
    whose rightmost segment is one of the three marker names. *)
Lemma isPathType_iff (typeNode : TypeNode) :
  isPathType typeNode = true <->
  exists n, declaredName (Some typeNode) = Some n /\ In n markerNames.
Proof.
  destruct typeNode as [ | | typeName typeArguments | | ]; simpl;
    try (split; [discriminate | intros (n & H & _); discriminate H]).
  rewrite getTypeNameFromAST_rightmost.
  set (n := last (segmentsOf typeName) []).
  rewrite !orb_true_iff, !eqb_eq. split.
  - intros H. exists n. split; [reflexivity|]. simpl. intuition auto.
  - intros (m & Hm & Hin). injection Hm as <-. simpl in Hin.
    intuition auto.
Qed.

(** C7.  The checker reads the declared name off the annotation's
    syntax tree as the rightmost segment of the type name, and a
    variable declaration whose annotation does not declare one of
    [FilePathStr], [FolderPathStr], [AnyPathStr] (no annotation and
    plain [string] included) yields no diagnostic whatever its
    initializer and whatever exists on the file system: visiting the
    declaration adds only what visiting its children (name, annotation,
    initializer) adds. *)
Theorem non_marker_annotation_not_flagged :
  (forall typeName,
      getTypeNameFromAST typeName = last (segmentsOf typeName) [])
  /\ forall (fs : Env) (linter : PathLinter) (sourceFile : SourceFile)
            (name : Node) (type : option TypeNode) (init : Node)
            (diagnostics : list Diagnostic),
      (forall n, declaredName type = Some n -> ~ In n markerNames) ->
      checkVariableDeclaration fs linter sourceFile type init = None
      /\ visit fs linter sourceFile
           (VariableDeclaration name type (Some init)) diagnostics
         = visit fs linter sourceFile init
             (match type with
              | Some typeNode =>
                visit fs linter sourceFile typeNode
                  (visit fs linter sourceFile name diagnostics)
              | None => visit fs linter sourceFile name diagnostics
              end).
Proof.
  split; [exact getTypeNameFromAST_rightmost|].
  intros fs linter sourceFile name type init diagnostics Hname.
  assert (Hnone : checkVariableDeclaration fs linter sourceFile type init = None).
  { unfold checkVariableDeclaration.
    destruct init as [ | pathValue litStart litWidth | | | ]; try reflexivity.
    destruct type as [typeNode|]; [|reflexivity].
    destruct (isPathType typeNode) eqn:Hpt; [|reflexivity].
    apply isPathType_iff in Hpt. destruct Hpt as (n & Hn & Hin).
    exfalso. exact (Hname n Hn Hin). }
  split; [exact Hnone|].
  cbn [visit]. rewrite Hnone. destruct type; reflexivity.
Qed.

Lemma non_marker_annotation_not_flagged_witness :
  checkVariableDeclaration hostProj linterProj fileTest
    (Some (KeywordTypeNode (js "string")))
    (StringLiteral (js "src/some-file.ts") 36 18) = None
  /\ visit hostProj linterProj fileTest
       (VariableDeclaration (OtherNode []) (Some (KeywordTypeNode (js "string")))
          (Some (StringLiteral (js "src/some-file.ts") 36 18))) []
     = visit hostProj linterProj fileTest
         (StringLiteral (js "src/some-file.ts") 36 18)
         (visit hostProj linterProj fileTest (KeywordTypeNode (js "string"))
            (visit hostProj linterProj fileTest (OtherNode []) [])).
Proof.
  apply (proj2 non_marker_annotation_not_flagged hostProj linterProj fileTest
           (OtherNode []) (Some (KeywordTypeNode (js "string")))
           (StringLiteral (js "src/some-file.ts") 36 18) []).
  intros n Hn. simpl in Hn. discriminate Hn.
Defined.

Lemma leavesRoot_detected (relativePath : jsstring) :
  leavesRoot relativePath = true ->
  JsString.startsWith relativePath (js "..") || path.isAbsolute relativePath
  = true.
Proof.
  unfold leavesRoot. rewrite !orb_true_iff. intros [[H | H] | H].
  - apply eqb_eq in H. subst. left. reflexivity.
  - left. apply startsWith_trans with (a := js "../"); [exact H | reflexivity].
  - right. exact H.
Qed.

Lemma detected_leavesRoot_or_name (relativePath : jsstring) :
  JsString.startsWith relativePath (js "..") || path.isAbsolute relativePath
  = true ->
  leavesRoot relativePath = true \/ dotDotName relativePath = true.
Proof.
  unfold leavesRoot, dotDotName.
  destruct (JsString.startsWith relativePath (js ".."));
    destruct (JsString.eqb relativePath (js ".."));
    destruct (JsString.startsWith relativePath (js "../"));
    destruct (path.isAbsolute relativePath); simpl; auto.
Qed.

(** When [isValidPath] answers no. *)
Lemma isValidPath_false_iff (fs : Env) (linter : PathLinter)
    (pathValue : jsstring) :
  isValidPath fs linter pathValue = false <->
  pathValue = []
  \/ invalidChars_test pathValue = true
  \/ JsString.startsWith (relativePathOf fs (projectRoot linter) pathValue)
       (js "..")
     || path.isAbsolute (relativePathOf fs (projectRoot linter) pathValue)
     = true
  \/ existsSync fs (fullPathOf fs (projectRoot linter) pathValue) = false.
Proof.
  unfold isValidPath, relativePathOf.
  destruct pathValue as [|c p]; [simpl; tauto|].
  cbn [JsString.falsy].
  destruct (invalidChars_test (c :: p)); [tauto|].
  match goal with |- context [if ?b then false else _] =>
    destruct b end; [tauto|].
  split.
  - intros H. right. right. right. exact H.
  - intros [H | [H | [H | H]]]; try discriminate H. exact H.
Qed.

(** C2, refuted as stated.  An empty literal under a marker annotation
    is diagnosed although it passes the forbidden-character check,
    resolves to the project root itself and that directory exists. *)
Lemma empty_literal_diagnosed :
  newPathLinter hostProj (programOf []) (mkOptions None) = Return linterProj
  /\ isPathType (TypeReferenceNode (Identifier (js "FilePathStr")) []) = true
  /\ checkVariableDeclaration hostProj linterProj fileTest
       (Some (TypeReferenceNode (Identifier (js "FilePathStr")) []))
       (StringLiteral [] 31 2)
     = Some (diagnosticFor linterProj fileTest [] 31 2)
  /\ invalidChars_test [] = false
  /\ fullPathOf hostProj (js "/home/proj") [] = js "/home/proj"
  /\ relativePathOf hostProj (js "/home/proj") [] = []
  /\ leavesRoot [] = false
  /\ withinSubtree (js "/home/proj") (js "/home/proj") = true
  /\ existsSync hostProj (js "/home/proj") = true
  /\ ~ failsListedCheck hostProj (js "/home/proj") [].
Proof.
  repeat split; try (vm_compute; reflexivity).
  unfold failsListedCheck.
  replace (relativePathOf hostProj (js "/home/proj") []) with (@nil N)
    by (vm_compute; reflexivity).
  replace (fullPathOf hostProj (js "/home/proj") []) with (js "/home/proj")
    by (vm_compute; reflexivity).
  intros [H | [H | H]]; vm_compute in H; discriminate H.
Qed.

(** C2, amended.  For a variable declaration with a string-literal
    initializer and a marker-type annotation, the checker reports the
    one diagnostic with code 1001, the invalid-path message and the
    span of the literal whenever the literal is empty, fails the
    forbidden-character check, resolves outside the project root or
    does not exist; it reports nothing when none of these holds and the
    root-relative path does not begin with a name that starts with two
    dots.  At most one diagnostic is reported for the declaration:
    visiting it pushes that diagnostic, if any, and then visits the
    name and the annotation, the literal having no children.  A
    forbidden character is diagnosed on every file system. *)
Theorem marker_literal_diagnosed :
  forall (fs : Env) (linter : PathLinter) (sourceFile : SourceFile)
         (typeNode : TypeNode) (pathValue : jsstring) (litStart litWidth : Z),
    isPathType typeNode = true ->
    (pathValue = [] \/ failsListedCheck fs (projectRoot linter) pathValue ->
     checkVariableDeclaration fs linter sourceFile (Some typeNode)
       (StringLiteral pathValue litStart litWidth)
     = Some (diagnosticFor linter sourceFile pathValue litStart litWidth))
    /\ (~ (pathValue = [] \/ failsListedCheck fs (projectRoot linter) pathValue) ->
        dotDotName (relativePathOf fs (projectRoot linter) pathValue) = false ->
        checkVariableDeclaration fs linter sourceFile (Some typeNode)
          (StringLiteral pathValue litStart litWidth)
        = None)
    /\ (forall d,
          checkVariableDeclaration fs linter sourceFile (Some typeNode)
            (StringLiteral pathValue litStart litWidth) = Some d ->
          d = diagnosticFor linter sourceFile pathValue litStart litWidth)
    /\ (invalidChars_test pathValue = true ->
        forall fs',
          checkVariableDeclaration fs' linter sourceFile (Some typeNode)
            (StringLiteral pathValue litStart litWidth)
          = Some (diagnosticFor linter sourceFile pathValue litStart litWidth))
    /\ (forall name diagnostics,
          visit fs linter sourceFile
            (VariableDeclaration name (Some typeNode)
               (Some (StringLiteral pathValue litStart litWidth)))
            diagnostics
          = visit fs linter sourceFile typeNode
              (visit fs linter sourceFile name
                 (diagnostics
                  ++ match checkVariableDeclaration fs linter sourceFile
                             (Some typeNode)
                             (StringLiteral pathValue litStart litWidth) with
                     | Some d => [d]
                     | None => []
                     end))).
Proof.
  intros fs linter sourceFile typeNode pathValue litStart litWidth Hpt.
  assert (Hcheck : forall fs0,
    checkVariableDeclaration fs0 linter sourceFile (Some typeNode)
      (StringLiteral pathValue litStart litWidth)
    = if isValidPath fs0 linter pathValue then None
      else Some (diagnosticFor linter sourceFile pathValue litStart litWidth)).
  { intros fs0. unfold checkVariableDeclaration. rewrite Hpt. simpl.
    destruct (isValidPath fs0 linter pathValue); reflexivity. }
  repeat split.
  - intros Hfail. rewrite Hcheck.
    replace (isValidPath fs linter pathValue) with false; [reflexivity|].
    symmetry. apply isValidPath_false_iff.
    destruct Hfail as [H | [H | [H | H]]]; auto.
    right. right. left. apply leavesRoot_detected. exact H.
  - intros Hok Hname. rewrite Hcheck.
    destruct (isValidPath fs linter pathValue) eqn:Hv; [reflexivity|].
    exfalso. apply Hok. apply isValidPath_false_iff in Hv.
    destruct Hv as [H | [H | [H | H]]]; auto.
    + right. left. exact H.
    + apply detected_leavesRoot_or_name in H. destruct H as [H | H].
      * right. right. left. exact H.
      * rewrite H in Hname. discriminate Hname.
    + right. right. right. exact H.
  - intros d Hd. rewrite Hcheck in Hd.
    destruct (isValidPath fs linter pathValue); congruence.
  - intros Hchars fs'. rewrite Hcheck.
    replace (isValidPath fs' linter pathValue) with false; [reflexivity|].
    symmetry. apply isValidPath_false_iff. auto.
  - intros name diagnostics. cbn [visit].
    destruct (checkVariableDeclaration fs linter sourceFile (Some typeNode)
                (StringLiteral pathValue litStart litWidth));
      [reflexivity | rewrite app_nil_r; reflexivity].
Qed.

Lemma marker_literal_diagnosed_witness :
  checkVariableDeclaration hostProj linterProj fileTest
    (Some (TypeReferenceNode (Identifier (js "FilePathStr")) []))
    (StringLiteral (js "src/nonexistent-file.ts") 40 25)
  = Some (diagnosticFor linterProj fileTest (js "src/nonexistent-file.ts") 40 25).
Proof.
  apply (proj1 (marker_literal_diagnosed hostProj linterProj fileTest
                  (TypeReferenceNode (Identifier (js "FilePathStr")) [])
                  (js "src/nonexistent-file.ts") 40 25 eq_refl)).
  right. right. right. vm_compute. reflexivity.
Defined.

(* ------------------------------------------------------------------ *)
(** ** Severity                                                        *)
(* ------------------------------------------------------------------ *)

Section Severity.
Variable fs : Env.
Variables errLinter linter : PathLinter.
Hypothesis same_root : projectRoot linter = projectRoot errLinter.

Let recat : Diagnostic -> Diagnostic :=
  withCategory (getSeverityCategory linter).

Lemma isValidPath_same_root (pathValue : jsstring) :
  isValidPath fs linter pathValue = isValidPath fs errLinter pathValue.
Proof. unfold isValidPath. rewrite same_root. reflexivity. Qed.

Lemma checkVariableDeclaration_recat (sourceFile : SourceFile)
    (type : option TypeNode) (init : Node) :
  checkVariableDeclaration fs linter sourceFile type init
  = option_map recat
      (checkVariableDeclaration fs errLinter sourceFile type init).
Proof.
  unfold checkVariableDeclaration.
  destruct init as [ | pathValue litStart litWidth | | | ]; try reflexivity.
  destruct type as [typeNode|]; [|reflexivity].
  destruct (isPathType typeNode); [|reflexivity]. simpl.
  rewrite isValidPath_same_root.
  destruct (isValidPath fs errLinter pathValue); reflexivity.
Qed.

Lemma visit_recat (sourceFile : SourceFile) (node : Node) :
  forall diagnostics,
    visit fs linter sourceFile node (map recat diagnostics)
    = map recat (visit fs errLinter sourceFile node diagnostics).
Proof.
  induction node as [name type init IHname IHtype IHinit
                     | text litStart litWidth
                     | typeName children IHchildren
                     | keyword
                     | children IHchildren]
    using Node_tree_ind; intros diagnostics; cbn [visit].
  - assert (Hrest : forall ds,
      match init with
      | Some initNode =>
        visit fs linter sourceFile initNode
          match type with
          | Some typeNode =>
            visit fs linter sourceFile typeNode
              (visit fs linter sourceFile name (map recat ds))
          | None => visit fs linter sourceFile name (map recat ds)
          end
      | None =>
        match type with
        | Some typeNode =>
          visit fs linter sourceFile typeNode
            (visit fs linter sourceFile name (map recat ds))
        | None => visit fs linter sourceFile name (map recat ds)
        end
      end
      = map recat
          match init with
          | Some initNode =>
            visit fs errLinter sourceFile initNode
              match type with
              | Some typeNode =>
                visit fs errLinter sourceFile typeNode
                  (visit fs errLinter sourceFile name ds)
              | None => visit fs errLinter sourceFile name ds
              end
          | None =>
            match type with
            | Some typeNode =>
              visit fs errLinter sourceFile typeNode
                (visit fs errLinter sourceFile name ds)
            | None => visit fs errLinter sourceFile name ds
            end
          end).
    { intros ds. rewrite IHname.
      destruct type as [typeNode|], init as [initNode|];
        cbn [optionalChild] in IHtype, IHinit;
        rewrite ?IHtype, ?IHinit; reflexivity. }
    destruct init as [initNode|]; [|apply Hrest].
    rewrite checkVariableDeclaration_recat.
    destruct (checkVariableDeclaration fs errLinter sourceFile type initNode)
      as [d|]; simpl; [|apply Hrest].
    rewrite <- (Hrest (diagnostics ++ [d])), map_app. reflexivity.
  - reflexivity.
  - revert diagnostics.
    induction IHchildren as [|c cs Hc _ IHcs]; intros diagnostics;
      [reflexivity|].
    rewrite Hc. apply IHcs.
  - reflexivity.
  - revert diagnostics.
    induction IHchildren as [|c cs Hc _ IHcs]; intros diagnostics;
      [reflexivity|].
    rewrite Hc. apply IHcs.
Qed.

Lemma checkFile_recat (sourceFile : SourceFile) :
  checkFile fs linter sourceFile
  = map recat (checkFile fs errLinter sourceFile).
Proof. unfold checkFile. apply (visit_recat sourceFile _ []). Qed.

Lemma run_loop_recat (files : list SourceFile) :
  forall diagnostics,
    run_loop fs linter files (map recat diagnostics)
    = map recat (run_loop fs errLinter files diagnostics).
Proof.
  induction files as [|sourceFile files IH]; intros diagnostics;
    [reflexivity|].
  simpl. destruct (isDeclarationFile sourceFile); simpl.
  - apply IH.
  - rewrite checkFile_recat, <- map_app. apply IH.
Qed.
End Severity.

Lemma withCategory_fields (c : DiagnosticCategory.t) (ds : list Diagnostic) :
  List.length (map (withCategory c) ds) = List.length ds
  /\ map messageText (map (withCategory c) ds) = map messageText ds
  /\ map code (map (withCategory c) ds) = map code ds
  /\ map file (map (withCategory c) ds) = map file ds
  /\ map start (map (withCategory c) ds) = map start ds
  /\ map length (map (withCategory c) ds) = map length ds
  /\ map category (map (withCategory c) ds) = map (fun _ => c) ds.
Proof.
  rewrite length_map, !map_map. repeat split.
Qed.

(** C8.  Running the checker under severity [warn] or [off] instead of
    [error] changes the category of each diagnostic and nothing else:
    the diagnostics are those of the [error] run, in the same number
    and order, with the same messages, codes, files and spans, under
    the category of the setting; [off] reports them as suggestions and
    suppresses none.  Construction succeeds or fails alike under every
    setting. *)
Theorem severity_changes_category_only :
  forall (fs : Env) (program : Program) (sev : Severity),
    match newPathLinter fs program (mkOptions (Some sev_error)),
          newPathLinter fs program (mkOptions (Some sev)) with
    | Return errLinter, Return linter =>
      getSeverityCategory linter = categoryOf sev
      /\ categoryOf sev_off = DiagnosticCategory.Suggestion
      /\ run fs linter = map (withCategory (categoryOf sev)) (run fs errLinter)
      /\ (forall sourceFile,
            checkFile fs linter sourceFile
            = map (withCategory (categoryOf sev))
                (checkFile fs errLinter sourceFile))
      /\ List.length (run fs linter) = List.length (run fs errLinter)
      /\ map messageText (run fs linter) = map messageText (run fs errLinter)
      /\ map code (run fs linter) = map code (run fs errLinter)
      /\ map file (run fs linter) = map file (run fs errLinter)
      /\ map start (run fs linter) = map start (run fs errLinter)
      /\ map length (run fs linter) = map length (run fs errLinter)
      /\ map category (run fs linter)
         = map (fun _ => categoryOf sev) (run fs errLinter)
    | Throw e1, Throw e2 => e1 = e2
    | _, _ => False
    end.
Proof.
  intros fs program sev. unfold newPathLinter.
  destruct (findProjectRoot fs None) as [root|e]; simpl; [|reflexivity].
  set (errLinter := mkLinter program root (mkOptions (Some sev_error))).
  set (linter := mkLinter program root (mkOptions (Some sev))).
  assert (Hcat : getSeverityCategory linter = categoryOf sev)
    by (destruct sev; reflexivity).
  assert (Hrun : run fs linter
                 = map (withCategory (categoryOf sev)) (run fs errLinter)).
  { rewrite <- Hcat. unfold run.
    apply (run_loop_recat fs errLinter linter eq_refl
             (getSourceFiles program) []). }
  split; [exact Hcat|]. split; [reflexivity|]. split; [exact Hrun|].
  split.
  { intros sourceFile. rewrite <- Hcat.
    apply (checkFile_recat fs errLinter linter eq_refl). }
  rewrite Hrun. apply withCategory_fields.
Qed.

(* ================================================================== *)
(** * Properties of the language-service plugin                        *)
(* ================================================================== *)

Lemma eqb_false_of_neq (a b : jsstring) : a <> b -> JsString.eqb a b = false.
Proof.
  intros H. destruct (JsString.eqb a b) eqn:E; [|reflexivity].
  apply eqb_eq in E. contradiction.
Qed.

(** C9.  When the plugin wraps a language service, reading any
    property other than [getSemanticDiagnostics] from the wrapper gives
    what the wrapped service gives, and the wrapper's
    [getSemanticDiagnostics] returns, for a file of the program, the
    wrapped service's diagnostics followed by the checker's diagnostics
    for that file; for a file name the program does not know, the
    checker has nothing to add and the original list is returned. *)
Theorem plugin_appends_path_diagnostics :
  forall (fs : Env) (options : LinterOptions)
         (languageService proxy : LanguageService),
    createPathLinterPlugin fs options languageService = Return proxy ->
    exists program linter,
      callGetProgram languageService = Return program
      /\ newPathLinter fs program options = Return linter
      /\ (forall prop,
            prop <> js "getSemanticDiagnostics" ->
            proxy prop = Reflect_get languageService prop)
      /\ exists intercepted,
           proxy (js "getSemanticDiagnostics") = PropDiagnosticsFn intercepted
           /\ forall name originalDiagnostics,
                callGetSemanticDiagnostics languageService name
                = Return originalDiagnostics ->
                (forall sourceFile,
                    getSourceFile program name = Some sourceFile ->
                    intercepted name
                    = Return (originalDiagnostics
                              ++ checkFile fs linter sourceFile))
                /\ (getSourceFile program name = None ->
                    intercepted name = Return originalDiagnostics).
Proof.
  intros fs options languageService proxy Hcreate.
  unfold createPathLinterPlugin in Hcreate.
  destruct (callGetProgram languageService) as [program|e] eqn:Hprogram;
    [|discriminate Hcreate].
  simpl in Hcreate.
  destruct (newPathLinter fs program options) as [linter|e] eqn:Hlinter;
    [|discriminate Hcreate].
  simpl in Hcreate. injection Hcreate as <-.
  exists program, linter.
  split; [reflexivity|]. split; [exact Hlinter|]. split.
  - intros prop Hprop. unfold proxy_get.
    rewrite (eqb_false_of_neq _ _ Hprop). reflexivity.
  - exists (interceptedDiagnostics fs linter languageService). split.
    + unfold proxy_get. rewrite eqb_refl. reflexivity.
    + intros name originalDiagnostics Horig.
      unfold interceptedDiagnostics. rewrite Horig, Hprogram. simpl.
      split.
      * intros sourceFile Hsf. rewrite Hsf. reflexivity.
      * intros Hnone. rewrite Hnone. reflexivity.
Qed.

Lemma plugin_appends_path_diagnostics_witness :
  exists program linter,
    callGetProgram serviceDemo = Return program
    /\ newPathLinter hostProj program (mkOptions None) = Return linter
    /\ (forall prop,
          prop <> js "getSemanticDiagnostics" ->
          proxyDemo prop = Reflect_get serviceDemo prop)
    /\ exists intercepted,
         proxyDemo (js "getSemanticDiagnostics") = PropDiagnosticsFn intercepted
         /\ forall name originalDiagnostics,
              callGetSemanticDiagnostics serviceDemo name
              = Return originalDiagnostics ->
              (forall sourceFile,
                  getSourceFile program name = Some sourceFile ->
                  intercepted name
                  = Return (originalDiagnostics
                            ++ checkFile hostProj linter sourceFile))
              /\ (getSourceFile program name = None ->
                  intercepted name = Return originalDiagnostics).
Proof.
  apply (plugin_appends_path_diagnostics hostProj (mkOptions None)
           serviceDemo proxyDemo).
  unfold createPathLinterPlugin, proxyDemo.
  replace (callGetProgram serviceDemo)
    with (Return (programOf [fileBadLiteral])) by reflexivity.
  cbn [bind].
  replace (newPathLinter hostProj (programOf [fileBadLiteral]) (mkOptions None))
    with (Return (mkLinter (programOf [fileBadLiteral]) (js "/home/proj")
                    (mkOptions (Some sev_error))))
    by (unfold newPathLinter;
        replace (findProjectRoot hostProj None) with (Return (js "/home/proj"))
          by (vm_compute; reflexivity);
        reflexivity).
  reflexivity.
Defined.

(* ================================================================== *)
(** * The repository's tests, replayed on the model                    *)
(* ================================================================== *)

(** The tests run inside the project: [hostProj] stands for that host,
    with the project at [/home/proj]. *)

(** [getProjectRoot()] returns a non-empty string. *)
Example test_getProjectRoot :
  getProjectRoot hostProj = Return (js "/home/proj").
Proof. replay. Qed.

(** [expect(() => FilePath('./src/index.ts')).not.toThrow()] and
    [expect(() => FilePath('/absolute/path/file.txt')).not.toThrow()] *)
Example test_FilePath_valid :
  FilePath hostProj (JsStr (js "./src/index.ts")) None
  = Return (JsStr (js "./src/index.ts"))
  /\ FilePath hostProj (JsStr (js "/absolute/path/file.txt")) None
     = Return (JsStr (js "/absolute/path/file.txt")).
Proof. split; replay. Qed.

(** [FilePath('')], [FilePath(null as any)] and
    [FilePath('path/with/invalid<chars')] throw. *)
Example test_FilePath_invalid :
  FilePath hostProj (JsStr []) None = Throw (Error (js "Invalid file path"))
  /\ FilePath hostProj JsNull None = Throw (Error (js "Invalid file path"))
  /\ FilePath hostProj (JsStr (js "path/with/invalid<chars")) None
     = Throw (Error (js "Invalid file path: contains invalid characters")).
Proof. repeat split; replay. Qed.

(** [expect(() => FilePath('', 'Custom error')).toThrow('Custom error')] *)
Example test_FilePath_custom_message :
  FilePath hostProj (JsStr []) (Some (js "Custom error"))
  = Throw (Error (js "Custom error")).
Proof. replay. Qed.

(** [FolderPath] and [AnyPath]: the same cases. *)
Example test_FolderPath_AnyPath :
  FolderPath hostProj (JsStr (js "./src")) None = Return (JsStr (js "./src"))
  /\ FolderPath hostProj (JsStr (js "/absolute/path")) None
     = Return (JsStr (js "/absolute/path"))
  /\ FolderPath hostProj JsNull None = Throw (Error (js "Invalid folder path"))
  /\ AnyPath hostProj (JsStr (js "./src/index.ts")) None
     = Return (JsStr (js "./src/index.ts"))
  /\ AnyPath hostProj (JsStr []) None = Throw (Error (js "Invalid path")).
Proof. repeat split; replay. Qed.

(** should validate existing file paths *)
Example test_existing_file :
  runOn (fileWith FilePathStr (js "src/index.ts")) None = Return [].
Proof. replay. Qed.

(** should detect non-existent file paths *)
Example test_missing_file :
  runOn (fileWith FilePathStr (js "src/nonexistent-file.ts")) None
  = Return [mkDiagnostic DiagnosticCategory.Error 1001
              (invalidPathMessage (js "src/nonexistent-file.ts"))
              (fileWith FilePathStr (js "src/nonexistent-file.ts")) 40 25].
Proof. replay. Qed.

(** should detect paths with invalid characters *)
Example test_invalid_characters :
  option_map (@List.length Diagnostic)
    (match runOn (fileWith FilePathStr (js "src/file<with>invalid:chars.txt"))
             None with
     | Return ds => Some ds
     | Throw _ => None
     end)
  = Some 1.
Proof. replay. Qed.

(** should respect severity levels *)
Example test_severity :
  (match runOn (fileWith FilePathStr (js "src/nonexistent-file.ts"))
           (Some sev_warn) with
   | Return ds => Some (map category ds)
   | Throw _ => None
   end) = Some [DiagnosticCategory.Warning]
  /\ (match runOn (fileWith FilePathStr (js "src/nonexistent-file.ts"))
             (Some sev_off) with
      | Return ds => Some (map category ds)
      | Throw _ => None
      end) = Some [DiagnosticCategory.Suggestion].
Proof. split; replay. Qed.

(** should ignore non-path type assignments *)
Example test_plain_string_ignored :
  runOn (fileWith (KeywordTypeNode (js "string")) (js "src/some-file.ts")) None
  = Return [].
Proof. replay. Qed.

(** A qualified reference [paths.FolderPathStr] is a marker type. *)
Example test_qualified_marker :
  isPathType
    (TypeReferenceNode
       (QualifiedName (Identifier (js "paths")) (Identifier (js "FolderPathStr")))
       [])
  = true.
Proof. replay. Qed.

(** The wrapper's diagnostics for a file of the program: the wrapped
    service's, then the checker's. *)
Example test_plugin_diagnostics :
  match proxyDemo (js "getSemanticDiagnostics") with
  | PropDiagnosticsFn f =>
    f (js "bad.ts")
    = Return [hostDiagnostic;
              mkDiagnostic DiagnosticCategory.Error 1001
                (invalidPathMessage (js "src/nonexistent-file.ts"))
                fileBadLiteral 40 25]
    /\ f (js "./bad.ts") = f (js "bad.ts")
    /\ f (js "unknown.ts") = Return [hostDiagnostic]
  | _ => False
  end
  /\ proxyDemo (js "dispose") = PropOther 1.
Proof. split; [repeat split|]; replay. Qed.

(** Two behaviours next to the properties above.  The prefix test of
    the validators lets a sibling directory whose name extends the
    root's through, and the checker flags a name inside the root that
    begins with two dots. *)
Example sibling_directory_passes_prefix_test :
  FilePath hostProj (JsStr (js "../proj2/x")) None
  = Return (JsStr (js "../proj2/x"))
  /\ path.resolve (cwd hostProj) [js "/home/proj"; js "../proj2/x"]
     = js "/home/proj2/x"
  /\ withinSubtree (js "/home/proj") (js "/home/proj2/x") = false.
Proof. repeat split; replay. Qed.

Example two_dot_name_flagged :
  isValidPath (fsOf (js "/home/proj") [js "/home/proj/..cache"]) linterProj
    (js "..cache") = false
  /\ relativePathOf (fsOf (js "/home/proj") [js "/home/proj/..cache"])
       (js "/home/proj") (js "..cache") = js "..cache"
  /\ existsSync (fsOf (js "/home/proj") [js "/home/proj/..cache"])
       (fullPathOf (fsOf (js "/home/proj") [js "/home/proj/..cache"])
          (js "/home/proj") (js "..cache")) = true
  /\ withinSubtree (js "/home/proj") (js "/home/proj/..cache") = true.
Proof. repeat split; replay. Qed.

(* ================================================================== *)
(** * Further properties of the project-root resolver                  *)
(* ================================================================== *)

(** One turn of the loop. *)
Lemma findProjectRoot_loop_step (fs : Env) (dir : jsstring) :
  findProjectRoot_loop fs dir =
  if hasParent dir then
    if hasMarker fs dir then Return dir
    else findProjectRoot_loop fs (path.dirname dir)
  else Throw (Error notFoundMessage).
Proof.
  funelim (findProjectRoot_loop fs dir).
  - rewrite Hguard. reflexivity.
  - match goal with H : hasParent _ = false |- _ => rewrite H end.
    reflexivity.
Qed.

Lemma findProjectRoot_start (fs : Env) (startDir : option jsstring) :
  findProjectRoot fs startDir = findProjectRoot_loop fs (startOf fs startDir).
Proof. reflexivity. Qed.

Lemma hasMarker_false_all (fs : Env) (dir marker : jsstring) :
  hasMarker fs dir = false -> In marker markers ->
  existsSync fs (path.join [dir; marker]) = false.
Proof.
  intros H Hin.
  destruct (existsSync fs (path.join [dir; marker])) eqn:E; [|reflexivity].
  assert (Ht : hasMarker fs dir = true).
  { apply existsb_exists. exists marker. split; assumption. }
  congruence.
Qed.

(** A directory that has a parent and holds a marker is the answer of
    the walk that starts there. *)
Lemma findProjectRoot_loop_at_root (fs : Env) (dir : jsstring) :
  hasParent dir = true -> hasMarker fs dir = true ->
  findProjectRoot_loop fs dir = Return dir.
Proof.
  intros Hp Hm. rewrite findProjectRoot_loop_step, Hp, Hm. reflexivity.
Qed.

(** A directory returned by the walk is never the empty string, unless
    the walk started there. *)
Lemma dirname_not_empty (d : jsstring) : path.dirname d <> [].
Proof.
  unfold path.dirname.
  destruct (JsString.length d =? 0)%Z eqn:Hlen; [discriminate|].
  destruct (path.dirname_scan d (List.length d - 1) true) as [e|] eqn:Hscan.
  - apply dirname_scan_bounds in Hscan. destruct Hscan as [Hb Hlt].
    specialize (Hlt eq_refl).
    destruct (JsString.charCodeIs d 0 path.CHAR_FORWARD_SLASH && Nat.eqb e 1);
      [discriminate|].
    intros H. apply (f_equal (@List.length N)) in H.
    rewrite slice_prefix_length in H by lia. simpl in H. lia.
  - destruct (JsString.charCodeIs d 0 path.CHAR_FORWARD_SLASH); discriminate.
Qed.

Lemma ancestor_not_empty (n : nat) (d : jsstring) :
  ancestor n d = [] -> n = 0 /\ d = [].
Proof.
  destruct n as [|n]; [intros H; split; [reflexivity | exact H]|].
  unfold ancestor. simpl. intros H. apply dirname_not_empty in H.
  contradiction.
Qed.

(** X1.  When [findProjectRoot] returns a directory, it is an ancestor
    of the start directory (the start included), it differs from its
    own parent, one of the eight markers exists in it, and no marker
    exists in any ancestor nearer to the start. *)
Theorem findProjectRoot_returns_nearest_marked :
  forall (fs : Env) (startDir : option jsstring) (r : jsstring),
    findProjectRoot fs startDir = Return r ->
    exists n,
      r = ancestor n (startOf fs startDir)
      /\ hasParent r = true
      /\ (exists marker,
            In marker markers /\ existsSync fs (path.join [r; marker]) = true)
      /\ forall k marker,
           k < n -> In marker markers ->
           existsSync fs (path.join [ancestor k (startOf fs startDir); marker])
           = false.
Proof.
  intros fs startDir r H. rewrite findProjectRoot_start in H.
  pose proof (findProjectRoot_loop_spec fs (startOf fs startDir)) as Hspec.
  rewrite H in Hspec. destruct Hspec as (n & Hr & Hp & Hm & Hbelow).
  exists n. split; [exact Hr|]. split; [exact Hp|]. split.
  - apply existsb_exists in Hm. exact Hm.
  - intros k marker Hk Hin. apply hasMarker_false_all; auto.
Qed.

Lemma findProjectRoot_returns_nearest_marked_witness :
  exists n,
    js "/home/proj" = ancestor n (startOf hostProj (Some (js "/home/proj/src/lib")))
    /\ hasParent (js "/home/proj") = true
    /\ (exists marker,
          In marker markers
          /\ existsSync hostProj (path.join [js "/home/proj"; marker]) = true)
    /\ forall k marker,
         k < n -> In marker markers ->
         existsSync hostProj
           (path.join [ancestor k (startOf hostProj (Some (js "/home/proj/src/lib")));
                       marker])
         = false.
Proof.
  apply (findProjectRoot_returns_nearest_marked hostProj
           (Some (js "/home/proj/src/lib")) (js "/home/proj")).
  vm_compute. reflexivity.
Defined.

(** X2.  [findProjectRoot] fails exactly when no ancestor of the start
    directory that differs from its own parent holds a marker, and the
    only error it raises is the not-found error. *)
Theorem findProjectRoot_fails_iff_no_marker :
  forall (fs : Env) (startDir : option jsstring),
    (findProjectRoot fs startDir = Throw (Error notFoundMessage) <->
     forall k,
       hasParent (ancestor k (startOf fs startDir)) = true ->
       hasMarker fs (ancestor k (startOf fs startDir)) = false)
    /\ (forall e, findProjectRoot fs startDir = Throw e ->
                  e = Error notFoundMessage).
Proof.
  intros fs startDir. rewrite findProjectRoot_start.
  pose proof (findProjectRoot_loop_spec fs (startOf fs startDir)) as Hspec.
  destruct (findProjectRoot_loop fs (startOf fs startDir)) as [r|e].
  - destruct Hspec as (n & Hr & Hp & Hm & _). split.
    + split; [discriminate|].
      intros Hnone. specialize (Hnone n). rewrite <- Hr in Hnone.
      rewrite (Hnone Hp) in Hm. discriminate Hm.
    + intros e He. discriminate He.
  - destruct Hspec as [He Hnone]. subst e. split.
    + split; [intros _; exact Hnone | reflexivity].
    + intros e He. injection He as <-. reflexivity.
Qed.

(** X3.  The resolver is idempotent: started from the directory it
    returned, it returns that directory again. *)
Theorem findProjectRoot_idempotent :
  forall (fs : Env) (startDir : option jsstring) (r : jsstring),
    findProjectRoot fs startDir = Return r ->
    findProjectRoot fs (Some r) = Return r.
Proof.
  intros fs startDir r H.
  pose proof H as H0. rewrite findProjectRoot_start in H0.
  pose proof (findProjectRoot_loop_spec fs (startOf fs startDir)) as Hspec.
  rewrite H0 in Hspec. destruct Hspec as (n & Hr & Hp & Hm & _).
  destruct r as [|c r'].
  - symmetry in Hr. apply ancestor_not_empty in Hr. destruct Hr as [_ Hs].
    rewrite findProjectRoot_start. simpl.
    destruct startDir as [d|]; simpl in Hs.
    + destruct d; simpl in Hs; [|discriminate Hs].
      rewrite Hs. apply findProjectRoot_loop_at_root; assumption.
    + rewrite Hs. apply findProjectRoot_loop_at_root; assumption.
  - rewrite findProjectRoot_start. simpl.
    apply findProjectRoot_loop_at_root; assumption.
Qed.

Lemma findProjectRoot_idempotent_witness :
  findProjectRoot hostProj (Some (js "/home/proj")) = Return (js "/home/proj").
Proof.
  apply (findProjectRoot_idempotent hostProj (Some (js "/home/proj/src"))
           (js "/home/proj")).
  vm_compute. reflexivity.
Defined.

Lemma startsWith_firstn (d : jsstring) (e : nat) :
  JsString.startsWith d (firstn e d) = true.
Proof.
  revert e. induction d as [|x d IH]; intros [|e]; simpl; try reflexivity.
  rewrite N.eqb_refl. apply IH.
Qed.

Lemma startsWith_refl (d : jsstring) : JsString.startsWith d d = true.
Proof.
  rewrite <- (firstn_all d) at 2. apply startsWith_firstn.
Qed.

Lemma slice_prefix_eq (p : jsstring) (e : nat) :
  e <= List.length p -> JsString.slice p 0 (Z.of_nat e) = firstn e p.
Proof.
  intros He. unfold JsString.slice, JsString.length.
  replace (0 <? 0)%Z with false by reflexivity.
  destruct (Z.of_nat e <? 0)%Z eqn:Hneg; [apply Z.ltb_lt in Hneg; lia|].
  rewrite Z.min_l by lia. rewrite Z.min_l by lia.
  rewrite Z.sub_0_r, Nat2Z.id. reflexivity.
Qed.

(** The scan of [dirname] stops on a separator. *)
Lemma dirname_scan_slash (p : jsstring) (i : nat) (matchedSlash : bool)
    (e : nat) :
  path.dirname_scan p i matchedSlash = Some e ->
  JsString.charCodeIs p (Z.of_nat e) path.CHAR_FORWARD_SLASH = true.
Proof.
  revert matchedSlash.
  induction i as [|i IH]; intros m H; cbn [path.dirname_scan] in H;
    [discriminate|].
  destruct (JsString.charCodeIs p (Z.of_nat (S i)) path.CHAR_FORWARD_SLASH)
    eqn:Hc.
  - destruct m; simpl in H.
    + eapply IH; eassumption.
    + injection H as <-. exact Hc.
  - eapply IH; eassumption.
Qed.

(** A parent that has a parent of its own is a prefix of the path. *)
Lemma dirname_prefix (d : jsstring) :
  hasParent (path.dirname d) = true ->
  JsString.startsWith d (path.dirname d) = true.
Proof.
  unfold path.dirname.
  destruct (JsString.length d =? 0)%Z; [discriminate|].
  destruct (path.dirname_scan d (List.length d - 1) true) as [e|] eqn:Hscan.
  - pose proof (dirname_scan_slash _ _ _ _ Hscan) as Hslash.
    apply dirname_scan_bounds in Hscan. destruct Hscan as [Hb Hlt].
    specialize (Hlt eq_refl).
    destruct (JsString.charCodeIs d 0 path.CHAR_FORWARD_SLASH) eqn:Hroot;
      simpl.
    + destruct (Nat.eqb_spec e 1) as [->|Hne]; intros _.
      * destruct d as [|a [|b t]]; try discriminate Hslash.
        unfold JsString.charCodeIs, JsString.charCodeAt in Hroot, Hslash.
        simpl in Hroot, Hslash. apply N.eqb_eq in Hroot, Hslash.
        subst a b. reflexivity.
      * rewrite slice_prefix_eq by lia. apply startsWith_firstn.
    + intros _. rewrite slice_prefix_eq by lia. apply startsWith_firstn.
  - destruct (JsString.charCodeIs d 0 path.CHAR_FORWARD_SLASH); discriminate.
Qed.

Lemma ancestor_prefix (n : nat) (d : jsstring) :
  hasParent (ancestor n d) = true ->
  JsString.startsWith d (ancestor n d) = true.
Proof.
  revert d. induction n as [|n IH]; intros d Hp; [apply startsWith_refl|].
  rewrite ancestor_succ in *.
  apply startsWith_trans with (a := path.dirname d); [|apply IH; exact Hp].
  apply dirname_prefix.
  destruct (hasParent (path.dirname d)) eqn:E; [reflexivity|].
  rewrite (ancestor_fixed n _ E) in Hp. congruence.
Qed.

(** X4.  The directory [findProjectRoot] returns is, as a string, a
    prefix of the directory the walk started from. *)
Theorem findProjectRoot_returns_prefix :
  forall (fs : Env) (startDir : option jsstring) (r : jsstring),
    findProjectRoot fs startDir = Return r ->
    JsString.startsWith (startOf fs startDir) r = true.
Proof.
  intros fs startDir r H. rewrite findProjectRoot_start in H.
  pose proof (findProjectRoot_loop_spec fs (startOf fs startDir)) as Hspec.
  rewrite H in Hspec. destruct Hspec as (n & Hr & Hp & _).
  subst r. apply ancestor_prefix. exact Hp.
Qed.

Lemma findProjectRoot_returns_prefix_witness :
  JsString.startsWith (startOf hostProj None) (js "/home/proj") = true.
Proof.
  apply (findProjectRoot_returns_prefix hostProj None (js "/home/proj")).
  vm_compute. reflexivity.
Defined.

(** X5.  [isProjectRoot(dir)] answers for the whole chain of parents,
    not for [dir] alone: it holds exactly when some ancestor of the
    start directory (the start included) that differs from its own
    parent holds a marker. *)
Theorem isProjectRoot_iff_some_ancestor_marked :
  forall (fs : Env) (dir : jsstring),
    isProjectRoot fs dir = true <->
    exists k,
      hasParent (ancestor k (startOf fs (Some dir))) = true
      /\ hasMarker fs (ancestor k (startOf fs (Some dir))) = true.
Proof.
  intros fs dir. unfold isProjectRoot. rewrite findProjectRoot_start.
  pose proof (findProjectRoot_loop_spec fs (startOf fs (Some dir))) as Hspec.
  destruct (findProjectRoot_loop fs (startOf fs (Some dir))) as [r|e].
  - destruct Hspec as (n & Hr & Hp & Hm & _). split; [|reflexivity].
    intros _. exists n. rewrite <- Hr. split; assumption.
  - destruct Hspec as [_ Hnone]. split; [discriminate|].
    intros (k & Hp & Hm). rewrite (Hnone k Hp) in Hm. discriminate Hm.
Qed.

(* ================================================================== *)
(** * Further properties of the validators                             *)
(* ================================================================== *)

(** Whether [validatePath] returns does not depend on the message. *)
Lemma validatePath_returns_any_message (fs : Env) (x : JsValue)
    (m m' : jsstring) :
  validatePath fs x m = Return tt -> validatePath fs x m' = Return tt.
Proof.
  destruct x as [ | | s]; try discriminate.
  rewrite !validatePath_prefix_checks.
  destruct (JsString.falsy (JsString.trim s)); [discriminate|].
  destruct (invalidChars_test s); [discriminate|].
  destruct (dotRelative s); [|reflexivity].
  destruct (getProjectRoot fs) as [root|e]; [|discriminate]. simpl.
  destruct (negb (JsString.startsWith (path.resolve (cwd fs) [root; s]) root));
    [discriminate | reflexivity].
Qed.

Lemma runValidator_returns_iff (v : Validator) (fs : Env) (x : JsValue)
    (msg : option jsstring) (r : JsValue) :
  runValidator v fs x msg = Return r <->
  r = x /\ validatePath fs x (orDefault msg (defaultMessage v)) = Return tt.
Proof.
  rewrite runValidator_eq.
  destruct (validatePath fs x (orDefault msg (defaultMessage v))) as [[]|e];
    simpl; split.
  - intros H. injection H as <-. split; reflexivity.
  - intros [-> _]. reflexivity.
  - discriminate.
  - intros [_ H]. discriminate H.
Qed.

(** X6.  The three validators apply the same checks: one accepts a
    candidate, under any messages, exactly when the others do, and
    with the same non-empty message supplied they give the same
    outcome, error included. *)
Theorem validators_differ_in_default_message_only :
  forall (fs : Env) (v v' : Validator) (x : JsValue),
    (forall msg msg' r,
        runValidator v fs x msg = Return r ->
        runValidator v' fs x msg' = Return r)
    /\ (forall m,
          m <> [] ->
          runValidator v fs x (Some m) = runValidator v' fs x (Some m)).
Proof.
  intros fs v v' x. split.
  - intros msg msg' r H. apply runValidator_returns_iff in H.
    destruct H as [-> H]. apply runValidator_returns_iff.
    split; [reflexivity|].
    eapply validatePath_returns_any_message. exact H.
  - intros m Hm. rewrite !runValidator_eq.
    destruct m as [|c m]; [contradiction|]. reflexivity.
Qed.

(** X7.  A candidate that is not a string ([null], [undefined]) is
    rejected with the plain message, supplied or default, on every
    host. *)
Theorem non_string_candidate_rejected :
  forall (fs : Env) (v : Validator) (x : JsValue) (msg : option jsstring),
    (forall s, x <> JsStr s) ->
    runValidator v fs x msg = Throw (Error (orDefault msg (defaultMessage v))).
Proof.
  intros fs v x msg Hx. rewrite runValidator_eq.
  destruct x as [ | | s]; try reflexivity.
  exfalso. exact (Hx s eq_refl).
Qed.

Lemma non_string_candidate_rejected_witness :
  AnyPath hostNoProject JsNull None = Throw (Error (js "Invalid path")).
Proof.
  apply (non_string_candidate_rejected hostNoProject VAny JsNull None).
  intros s. discriminate.
Defined.

(** X8.  The outcomes of a validator are five: it returns its
    argument, or throws an [Error] whose message is the supplied or
    default message, that message followed by the invalid-characters
    or by the root-escape suffix, or the resolver's not-found message.
    An empty supplied message counts as none. *)
Theorem validator_outcomes :
  forall (fs : Env) (v : Validator) (x : JsValue) (msg : option jsstring),
    let m := match msg with
             | Some (c :: t) => c :: t
             | _ => defaultMessage v
             end in
    runValidator v fs x msg = Return x
    \/ runValidator v fs x msg = Throw (Error m)
    \/ runValidator v fs x msg
       = Throw (Error (m ++ js ": contains invalid characters"))
    \/ runValidator v fs x msg
       = Throw (Error (m ++ js ": path escapes project root"))
    \/ runValidator v fs x msg = Throw (Error notFoundMessage).
Proof.
  intros fs v x msg m.
  assert (Hm : orDefault msg (defaultMessage v) = m).
  { unfold orDefault, m. destruct msg as [[|c t]|]; reflexivity. }
  rewrite runValidator_eq, Hm.
  destruct x as [ | | s]; [right; left; reflexivity
                          | right; left; reflexivity |].
  rewrite validatePath_prefix_checks.
  destruct (JsString.falsy (JsString.trim s)); [right; left; reflexivity|].
  destruct (invalidChars_test s); [right; right; left; reflexivity|].
  destruct (dotRelative s); [|left; reflexivity].
  destruct (getProjectRoot fs) as [root|e] eqn:Hroot; simpl.
  - destruct (negb (JsString.startsWith (path.resolve (cwd fs) [root; s]) root));
      [right; right; right; left; reflexivity | left; reflexivity].
  - apply findProjectRoot_not_found_only in Hroot. subst e.
    right. right. right. right. reflexivity.
Qed.

(** X9.  What a validator accepts is a string that is not blank and
    holds no forbidden character, and it is returned as it was
    given. *)
Theorem accepted_candidate_is_clean :
  forall (fs : Env) (v : Validator) (x r : JsValue) (msg : option jsstring),
    runValidator v fs x msg = Return r ->
    r = x
    /\ exists s,
         x = JsStr s
         /\ JsString.trim s <> []
         /\ forallb JsString.isWhiteSpace s = false
         /\ (forall c, In c s -> invalidChar c = false).
Proof.
  intros fs v x r msg H. apply runValidator_returns_iff in H.
  destruct H as [-> H]. split; [reflexivity|].
  destruct x as [ | | s]; try discriminate H.
  exists s. split; [reflexivity|].
  rewrite validatePath_prefix_checks in H.
  destruct (JsString.falsy (JsString.trim s)) eqn:Hblank; [discriminate H|].
  destruct (invalidChars_test s) eqn:Hchars; [discriminate H|].
  assert (Htrim : JsString.trim s <> []).
  { intros E. apply falsy_true_iff in E. congruence. }
  split; [exact Htrim|]. split.
  - destruct (forallb JsString.isWhiteSpace s) eqn:E; [|reflexivity].
    apply trim_nil_iff in E. contradiction.
  - intros c Hin. destruct (invalidChar c) eqn:Hc; [|reflexivity].
    assert (Ht : invalidChars_test s = true).
    { apply existsb_exists. exists c. split; assumption. }
    congruence.
Qed.

Lemma accepted_candidate_is_clean_witness :
  JsStr (js "./src/index.ts") = JsStr (js "./src/index.ts")
  /\ exists s,
       JsStr (js "./src/index.ts") = JsStr s
       /\ JsString.trim s <> []
       /\ forallb JsString.isWhiteSpace s = false
       /\ (forall c, In c s -> invalidChar c = false).
Proof.
  apply (accepted_candidate_is_clean hostProj VFile
           (JsStr (js "./src/index.ts")) (JsStr (js "./src/index.ts")) None).
  vm_compute. reflexivity.
Defined.

(** X10.  Outside a project, a candidate that begins with [./] or
    [../] and passes the first checks is not validated at all: the
    call throws the resolver's not-found error, whatever message was
    supplied. *)
Theorem dot_relative_outside_project_not_found :
  forall (fs : Env) (v : Validator) (s : jsstring) (msg : option jsstring)
         (e : JsError),
    getProjectRoot fs = Throw e ->
    dotRelative s = true ->
    invalidChars_test s = false ->
    runValidator v fs (JsStr s) msg = Throw (Error notFoundMessage).
Proof.
  intros fs v s msg e Hroot Hdot Hchars.
  rewrite runValidator_eq, validatePath_prefix_checks.
  rewrite (dotRelative_not_blank s Hdot), Hchars, Hdot, Hroot.
  apply findProjectRoot_not_found_only in Hroot. subst e. reflexivity.
Qed.

Lemma dot_relative_outside_project_not_found_witness :
  FilePath hostNoProject (JsStr (js "./notes.txt")) (Some (js "Custom error"))
  = Throw (Error notFoundMessage).
Proof.
  apply (dot_relative_outside_project_not_found hostNoProject VFile
           (js "./notes.txt") (Some (js "Custom error"))
           (Error notFoundMessage));
    vm_compute; reflexivity.
Defined.

(** X11.  A validator reads the host only through the working
    directory and the project root: on two hosts that agree on both,
    whatever else their file systems hold, it gives the same
    outcome. *)
Theorem validators_read_cwd_and_root_only :
  forall (fs fs' : Env) (v : Validator) (x : JsValue) (msg : option jsstring),
    cwd fs = cwd fs' ->
    getProjectRoot fs = getProjectRoot fs' ->
    runValidator v fs x msg = runValidator v fs' x msg.
Proof.
  intros fs fs' v x msg Hcwd Hroot. rewrite !runValidator_eq.
  destruct x as [ | | s]; try reflexivity.
  rewrite !validatePath_prefix_checks, Hcwd, Hroot. reflexivity.
Qed.

Lemma validators_read_cwd_and_root_only_witness :
  FilePath hostProj (JsStr (js "./src/missing.ts")) None
  = FilePath hostProjBare (JsStr (js "./src/missing.ts")) None.
Proof.
  apply (validators_read_cwd_and_root_only hostProj hostProjBare VFile
           (JsStr (js "./src/missing.ts")) None);
    vm_compute; reflexivity.
Defined.

(* ================================================================== *)
(** * Further properties of the static path checker                    *)
(* ================================================================== *)

(** The traversal appends, to what it was given, the reports of the
    declarations below the node, in order. *)
Lemma visit_declarations (fs : Env) (linter : PathLinter)
    (sourceFile : SourceFile) (node : Node) :
  forall diagnostics,
    visit fs linter sourceFile node diagnostics
    = diagnostics
      ++ flat_map (reportOf fs linter sourceFile) (declarationsOf node).
Proof.
  induction node as [name type init IHname IHtype IHinit
                     | text litStart litWidth
                     | typeName children IHchildren
                     | keyword
                     | children IHchildren]
    using Node_tree_ind; intros diagnostics;
    cbn [visit declarationsOf].
  - destruct init as [initNode|], type as [typeNode|];
      cbn [optionalChild] in IHtype, IHinit; cbn [app];
      rewrite ?IHinit, ?IHtype, IHname, ?flat_map_app;
      cbn [flat_map app]; rewrite ?flat_map_app, ?app_nil_r;
      try change (reportOf fs linter sourceFile (@Some Node typeNode, initNode))
        with (match checkVariableDeclaration fs linter sourceFile
                      (@Some Node typeNode) initNode with
              | Some d => [d]
              | None => []
              end);
      try change (reportOf fs linter sourceFile (@None Node, initNode))
        with (match checkVariableDeclaration fs linter sourceFile
                      (@None Node) initNode with
              | Some d => [d]
              | None => []
              end);
      try match goal with
          | |- context [checkVariableDeclaration ?a ?b ?c ?d ?e] =>
            destruct (checkVariableDeclaration a b c d e)
          end;
      cbn [app]; rewrite <- ?app_assoc; reflexivity.
  - rewrite app_nil_r. reflexivity.
  - revert diagnostics.
    induction IHchildren as [|c cs Hc _ IHcs]; intros diagnostics.
    + rewrite app_nil_r. reflexivity.
    + rewrite Hc, IHcs, flat_map_app, app_assoc. reflexivity.
  - rewrite app_nil_r. reflexivity.
  - revert diagnostics.
    induction IHchildren as [|c cs Hc _ IHcs]; intros diagnostics.
    + rewrite app_nil_r. reflexivity.
    + rewrite Hc, IHcs, flat_map_app, app_assoc. reflexivity.
Qed.

(** What a reported diagnostic says about the declaration it is for. *)
Lemma checkVariableDeclaration_some (fs : Env) (linter : PathLinter)
    (sourceFile : SourceFile) (type : option TypeNode) (init : Node)
    (d : Diagnostic) :
  checkVariableDeclaration fs linter sourceFile type init = Some d <->
  exists typeNode pathValue litStart litWidth,
    type = Some typeNode
    /\ init = StringLiteral pathValue litStart litWidth
    /\ isPathType typeNode = true
    /\ isValidPath fs linter pathValue = false
    /\ d = diagnosticFor linter sourceFile pathValue litStart litWidth.
Proof.
  unfold checkVariableDeclaration. split.
  - destruct init as [ | pathValue litStart litWidth | | | ]; try discriminate.
    destruct type as [typeNode|]; [|discriminate].
    destruct (isPathType typeNode) eqn:Hpt; [|discriminate]. simpl.
    destruct (isValidPath fs linter pathValue) eqn:Hv; [discriminate|].
    simpl. intros H. injection H as <-.
    exists typeNode, pathValue, litStart, litWidth. repeat split; assumption.
  - intros (typeNode & pathValue & litStart & litWidth
            & -> & -> & Hpt & Hv & ->).
    rewrite Hpt, Hv. reflexivity.
Qed.

(** X12.  Visiting a node only appends to the diagnostics gathered so
    far: what was there stays, in place, and what is added does not
    depend on it. *)
Theorem visit_only_appends :
  forall (fs : Env) (linter : PathLinter) (sourceFile : SourceFile)
         (node : Node) (diagnostics : list Diagnostic),
    visit fs linter sourceFile node diagnostics
    = diagnostics ++ visit fs linter sourceFile node [].
Proof.
  intros fs linter sourceFile node diagnostics.
  rewrite (visit_declarations fs linter sourceFile node diagnostics).
  rewrite (visit_declarations fs linter sourceFile node []).
  reflexivity.
Qed.

(** X13.  [checkFile] reports on every variable declaration with an
    initializer anywhere in the tree, those nested in the name, the
    type annotation or the initializer of another declaration
    included, once each and in traversal order. *)
Theorem checkFile_reports_every_declaration :
  forall (fs : Env) (linter : PathLinter) (sourceFile : SourceFile),
    checkFile fs linter sourceFile
    = flat_map (reportOf fs linter sourceFile)
        (declarationsOf (sourceNode sourceFile)).
Proof.
  intros fs linter sourceFile. unfold checkFile.
  apply (visit_declarations fs linter sourceFile (sourceNode sourceFile) []).
Qed.

(** X14.  A diagnostic is in the result of [checkFile] exactly when it
    is the diagnostic of a declaration of the tree that has a marker
    annotation and a string-literal initializer which [isValidPath]
    refuses: code 1001, the configured category, the invalid-path
    message for the literal, the file checked and the span of the
    literal. *)
Theorem checkFile_diagnostic_iff :
  forall (fs : Env) (linter : PathLinter) (sourceFile : SourceFile)
         (d : Diagnostic),
    In d (checkFile fs linter sourceFile) <->
    exists typeNode pathValue litStart litWidth,
      In (Some typeNode, StringLiteral pathValue litStart litWidth)
         (declarationsOf (sourceNode sourceFile))
      /\ isPathType typeNode = true
      /\ isValidPath fs linter pathValue = false
      /\ d = mkDiagnostic (getSeverityCategory linter) 1001
               (invalidPathMessage pathValue) sourceFile litStart litWidth.
Proof.
  intros fs linter sourceFile d. unfold checkFile.
  rewrite (visit_declarations fs linter sourceFile (sourceNode sourceFile) []).
  cbn [app]. rewrite in_flat_map. split.
  - intros ([type init] & Hin & Hd). unfold reportOf in Hd. cbn [fst snd] in Hd.
    destruct (checkVariableDeclaration fs linter sourceFile type init)
      as [d'|] eqn:Hcheck; [|contradiction].
    destruct Hd as [<-|[]].
    apply checkVariableDeclaration_some in Hcheck.
    destruct Hcheck as (typeNode & pathValue & litStart & litWidth
                        & -> & -> & Hpt & Hv & ->).
    exists typeNode, pathValue, litStart, litWidth. repeat split; assumption.
  - intros (typeNode & pathValue & litStart & litWidth & Hin & Hpt & Hv & ->).
    exists (Some typeNode, StringLiteral pathValue litStart litWidth).
    split; [exact Hin|].
    unfold reportOf. cbn [fst snd].
    replace (checkVariableDeclaration fs linter sourceFile (Some typeNode)
               (StringLiteral pathValue litStart litWidth))
      with (Some (diagnosticFor linter sourceFile pathValue litStart litWidth)).
    + left. reflexivity.
    + symmetry. apply checkVariableDeclaration_some.
      exists typeNode, pathValue, litStart, litWidth. repeat split; assumption.
Qed.

Lemma run_loop_flat_map (fs : Env) (linter : PathLinter)
    (files : list SourceFile) :
  forall diagnostics,
    run_loop fs linter files diagnostics
    = diagnostics
      ++ flat_map (checkFile fs linter)
           (filter (fun sourceFile => negb (isDeclarationFile sourceFile))
              files).
Proof.
  induction files as [|sourceFile files IH]; intros diagnostics; simpl.
  - rewrite app_nil_r. reflexivity.
  - rewrite IH. destruct (isDeclarationFile sourceFile); simpl;
      rewrite <- ?app_assoc; reflexivity.
Qed.

(** X15.  [run] gives the diagnostics of [checkFile] for the source
    files of the program that are not declaration files, file after
    file in program order; declaration files contribute nothing. *)
Theorem run_checks_non_declaration_files :
  forall (fs : Env) (linter : PathLinter),
    run fs linter
    = flat_map (checkFile fs linter)
        (filter (fun sourceFile => negb (isDeclarationFile sourceFile))
           (getSourceFiles (program linter))).
Proof.
  intros fs linter. unfold run.
  apply (run_loop_flat_map fs linter (getSourceFiles (program linter)) []).
Qed.

(** X16.  Which of the three marker names annotates a declaration
    makes no difference: a literal is diagnosed under one exactly as
    under another, so a path to a file satisfies [FolderPathStr] and a
    path to a directory satisfies [FilePathStr]. *)
Theorem marker_kind_not_distinguished :
  forall (fs : Env) (linter : PathLinter) (sourceFile : SourceFile)
         (typeNode typeNode' : TypeNode) (init : Node),
    isPathType typeNode = true ->
    isPathType typeNode' = true ->
    checkVariableDeclaration fs linter sourceFile (Some typeNode) init
    = checkVariableDeclaration fs linter sourceFile (Some typeNode') init.
Proof.
  intros fs linter sourceFile typeNode typeNode' init H H'.
  unfold checkVariableDeclaration. rewrite H, H'. reflexivity.
Qed.

Lemma marker_kind_not_distinguished_witness :
  checkVariableDeclaration hostProj linterProj fileTest
    (Some (TypeReferenceNode (Identifier (js "FolderPathStr")) []))
    (StringLiteral (js "src/index.ts") 40 14)
  = checkVariableDeclaration hostProj linterProj fileTest
      (Some (TypeReferenceNode (Identifier (js "FilePathStr")) []))
      (StringLiteral (js "src/index.ts") 40 14).
Proof.
  apply (marker_kind_not_distinguished hostProj linterProj fileTest
           (TypeReferenceNode (Identifier (js "FolderPathStr")) [])
           (TypeReferenceNode (Identifier (js "FilePathStr")) [])
           (StringLiteral (js "src/index.ts") 40 14));
    reflexivity.
Defined.

(** X17.  A literal under a marker annotation that the checker lets
    pass is not empty, holds no forbidden character, does not leave the
    project root, and names something that exists: the absolute path
    itself, or the literal resolved against the project root. *)
Theorem silent_literal_exists :
  forall (fs : Env) (linter : PathLinter) (sourceFile : SourceFile)
         (typeNode : TypeNode) (pathValue : jsstring) (litStart litWidth : Z),
    isPathType typeNode = true ->
    checkVariableDeclaration fs linter sourceFile (Some typeNode)
      (StringLiteral pathValue litStart litWidth) = None ->
    pathValue <> []
    /\ invalidChars_test pathValue = false
    /\ leavesRoot (relativePathOf fs (projectRoot linter) pathValue) = false
    /\ existsSync fs (fullPathOf fs (projectRoot linter) pathValue) = true.
Proof.
  intros fs linter sourceFile typeNode pathValue litStart litWidth Hpt Hnone.
  unfold checkVariableDeclaration in Hnone. rewrite Hpt in Hnone.
  simpl in Hnone.
  destruct (isValidPath fs linter pathValue) eqn:Hv; [|discriminate Hnone].
  pose proof (isValidPath_false_iff fs linter pathValue) as Hiff.
  repeat split.
  - intros E. assert (isValidPath fs linter pathValue = false)
      by (apply Hiff; left; exact E). congruence.
  - destruct (invalidChars_test pathValue) eqn:E; [|reflexivity].
    assert (isValidPath fs linter pathValue = false)
      by (apply Hiff; right; left; reflexivity). congruence.
  - destruct (leavesRoot (relativePathOf fs (projectRoot linter) pathValue))
      eqn:E; [|reflexivity].
    assert (isValidPath fs linter pathValue = false)
      by (apply Hiff; right; right; left; apply leavesRoot_detected; exact E).
    congruence.
  - destruct (existsSync fs (fullPathOf fs (projectRoot linter) pathValue))
      eqn:E; [reflexivity|].
    assert (isValidPath fs linter pathValue = false)
      by (apply Hiff; right; right; right; reflexivity). congruence.
Qed.

Lemma silent_literal_exists_witness :
  js "src/index.ts" <> []
  /\ invalidChars_test (js "src/index.ts") = false
  /\ leavesRoot (relativePathOf hostProj (projectRoot linterProj)
                   (js "src/index.ts")) = false
  /\ existsSync hostProj
       (fullPathOf hostProj (projectRoot linterProj) (js "src/index.ts"))
     = true.
Proof.
  apply (silent_literal_exists hostProj linterProj fileTest
           (TypeReferenceNode (Identifier (js "FilePathStr")) [])
           (js "src/index.ts") 40 14);
    vm_compute; reflexivity.
Defined.

(** X18.  Constructing the checker fails only when no project root is
    found from the working directory, with the resolver's not-found
    error; otherwise the checker holds that root and the program, and
    reports under the category of the given severity, [Error] when
    none is given. *)
Theorem newPathLinter_outcomes :
  forall (fs : Env) (program0 : Program) (options0 : LinterOptions),
    match getProjectRoot fs with
    | Return root =>
      exists linter,
        newPathLinter fs program0 options0 = Return linter
        /\ projectRoot linter = root
        /\ program linter = program0
        /\ getSeverityCategory linter
           = match severity options0 with
             | Some sev => categoryOf sev
             | None => DiagnosticCategory.Error
             end
    | Throw _ =>
      newPathLinter fs program0 options0 = Throw (Error notFoundMessage)
    end.
Proof.
  intros fs program0 options0. unfold newPathLinter, getProjectRoot.
  destruct (findProjectRoot fs None) as [root|e] eqn:Hroot; simpl.
  - eexists. split; [reflexivity|]. split; [reflexivity|].
    split; [reflexivity|].
    destruct (severity options0) as [[]|]; reflexivity.
  - apply findProjectRoot_not_found_only in Hroot. subst e. reflexivity.
Qed.

(* ================================================================== *)
(** * Further properties of the language-service plugin                *)
(* ================================================================== *)

Lemma proxy_get_diagnostics (fs : Env) (linter : PathLinter)
    (target : LanguageService) :
  proxy_get fs linter target (js "getSemanticDiagnostics")
  = PropDiagnosticsFn (interceptedDiagnostics fs linter target).
Proof. unfold proxy_get. rewrite eqb_refl. reflexivity. Qed.

Lemma callGetProgram_proxy (fs : Env) (linter : PathLinter)
    (target : LanguageService) :
  callGetProgram (proxy_get fs linter target) = callGetProgram target.
Proof.
  unfold callGetProgram, proxy_get.
  replace (JsString.eqb (js "getProgram") (js "getSemanticDiagnostics"))
    with false by reflexivity.
  reflexivity.
Qed.

Lemma callGetSemanticDiagnostics_proxy (fs : Env) (linter : PathLinter)
    (target : LanguageService) (name : jsstring) :
  callGetSemanticDiagnostics (proxy_get fs linter target) name
  = interceptedDiagnostics fs linter target name.
Proof.
  unfold callGetSemanticDiagnostics. rewrite proxy_get_diagnostics.
  reflexivity.
Qed.

(** When the plugin is created, and what it is then. *)
Lemma createPathLinterPlugin_returns (fs : Env) (options0 : LinterOptions)
    (languageService proxy : LanguageService) :
  createPathLinterPlugin fs options0 languageService = Return proxy <->
  exists program0 linter,
    callGetProgram languageService = Return program0
    /\ newPathLinter fs program0 options0 = Return linter
    /\ proxy = proxy_get fs linter languageService.
Proof.
  unfold createPathLinterPlugin. split.
  - destruct (callGetProgram languageService) as [program0|e];
      [|discriminate]. simpl.
    destruct (newPathLinter fs program0 options0) as [linter|e] eqn:Hl;
      [|discriminate]. simpl.
    intros H. injection H as <-. exists program0, linter.
    repeat split. exact Hl.
  - intros (program0 & linter & Hp & Hl & ->).
    rewrite Hp. simpl. rewrite Hl. reflexivity.
Qed.

(** X19.  The wrapper always has a [getSemanticDiagnostics] method,
    also around a service that has none; an exception of the wrapped
    method, or the [TypeError] of calling a missing one, comes out of
    the wrapper's method unchanged, and no path diagnostics are
    computed. *)
Theorem plugin_propagates_errors :
  forall (fs : Env) (options0 : LinterOptions)
         (languageService proxy : LanguageService),
    createPathLinterPlugin fs options0 languageService = Return proxy ->
    exists intercepted,
      proxy (js "getSemanticDiagnostics") = PropDiagnosticsFn intercepted
      /\ (forall name e,
            callGetSemanticDiagnostics languageService name = Throw e ->
            intercepted name = Throw e)
      /\ ((forall f, languageService (js "getSemanticDiagnostics")
                     <> PropDiagnosticsFn f) ->
          forall name, intercepted name = Throw TypeError).
Proof.
  intros fs options0 languageService proxy H.
  apply createPathLinterPlugin_returns in H.
  destruct H as (program0 & linter & _ & _ & ->).
  exists (interceptedDiagnostics fs linter languageService).
  split; [apply proxy_get_diagnostics|]. split.
  - intros name e He. unfold interceptedDiagnostics. rewrite He. reflexivity.
  - intros Hnone name. unfold interceptedDiagnostics.
    unfold callGetSemanticDiagnostics.
    destruct (languageService (js "getSemanticDiagnostics")) as [ | | f | ];
      try reflexivity.
    exfalso. exact (Hnone f eq_refl).
Qed.

(** X20.  Creating the plugin calls [getProgram] first and lets an
    exception of that call through unchanged; it throws a [TypeError]
    when the service has no such method or the call yields no program,
    and the resolver's not-found error when the working directory is
    in no project; otherwise it returns a wrapper, whether or not the
    service has a diagnostics method. *)
Theorem createPathLinterPlugin_outcomes :
  forall (fs : Env) (options0 : LinterOptions)
         (languageService : LanguageService),
    match languageService (js "getProgram") with
    | PropGetProgram (Throw e) =>
      createPathLinterPlugin fs options0 languageService = Throw e
    | PropGetProgram (Return (Some program0)) =>
      match getProjectRoot fs with
      | Return root =>
        createPathLinterPlugin fs options0 languageService
        = Return (proxy_get fs
                    (mkLinter program0 root
                       (mkOptions
                          (Some match severity options0 with
                                | Some sev => sev
                                | None => sev_error
                                end)))
                    languageService)
      | Throw _ =>
        createPathLinterPlugin fs options0 languageService
        = Throw (Error notFoundMessage)
      end
    | _ => createPathLinterPlugin fs options0 languageService = Throw TypeError
    end.
Proof.
  intros fs options0 languageService.
  unfold createPathLinterPlugin, callGetProgram, newPathLinter, getProjectRoot.
  destruct (languageService (js "getProgram"))
    as [ | [[program0|]|e] | f | id ]; try reflexivity.
  simpl.
  destruct (findProjectRoot fs None) as [root|e] eqn:Hroot; simpl.
  - destruct (severity options0); reflexivity.
  - apply findProjectRoot_not_found_only in Hroot. subst e. reflexivity.
Qed.

(** X21.  The plugin can wrap its own wrapper, and then the path
    diagnostics of a file come twice: the second layer takes the first
    layer's result for the original diagnostics and appends the
    checker's diagnostics again. *)
Theorem plugin_wrapped_twice_reports_twice :
  forall (fs : Env) (options0 : LinterOptions)
         (languageService proxy : LanguageService),
    createPathLinterPlugin fs options0 languageService = Return proxy ->
    exists proxy2 intercepted2 program0 linter,
      createPathLinterPlugin fs options0 proxy = Return proxy2
      /\ proxy2 (js "getSemanticDiagnostics") = PropDiagnosticsFn intercepted2
      /\ callGetProgram languageService = Return program0
      /\ newPathLinter fs program0 options0 = Return linter
      /\ forall name originalDiagnostics sourceFile,
           callGetSemanticDiagnostics languageService name
           = Return originalDiagnostics ->
           getSourceFile program0 name = Some sourceFile ->
           intercepted2 name
           = Return ((originalDiagnostics ++ checkFile fs linter sourceFile)
                     ++ checkFile fs linter sourceFile).
Proof.
  intros fs options0 languageService proxy H.
  apply createPathLinterPlugin_returns in H.
  destruct H as (program0 & linter & Hp & Hl & ->).
  exists (proxy_get fs linter (proxy_get fs linter languageService)),
         (interceptedDiagnostics fs linter (proxy_get fs linter languageService)),
         program0, linter.
  split.
  { apply createPathLinterPlugin_returns. exists program0, linter.
    rewrite callGetProgram_proxy. repeat split; assumption. }
  split; [apply proxy_get_diagnostics|].
  split; [exact Hp|]. split; [exact Hl|].
  intros name originalDiagnostics sourceFile Horig Hsf.
  unfold interceptedDiagnostics at 1.
  rewrite callGetSemanticDiagnostics_proxy, callGetProgram_proxy.
  unfold interceptedDiagnostics. rewrite Horig, Hp. simpl.
  rewrite Hsf. reflexivity.
Qed.

Lemma plugin_propagates_errors_witness :
  exists intercepted,
    proxyDemo (js "getSemanticDiagnostics") = PropDiagnosticsFn intercepted
    /\ (forall name e,
          callGetSemanticDiagnostics serviceDemo name = Throw e ->
          intercepted name = Throw e)
    /\ ((forall f, serviceDemo (js "getSemanticDiagnostics")
                   <> PropDiagnosticsFn f) ->
        forall name, intercepted name = Throw TypeError).
Proof.
  apply (plugin_propagates_errors hostProj (mkOptions None) serviceDemo
           proxyDemo).
  unfold createPathLinterPlugin, proxyDemo.
  replace (callGetProgram serviceDemo)
    with (Return (programOf [fileBadLiteral])) by reflexivity.
  cbn [bind].
  replace (newPathLinter hostProj (programOf [fileBadLiteral]) (mkOptions None))
    with (Return (mkLinter (programOf [fileBadLiteral]) (js "/home/proj")
                    (mkOptions (Some sev_error))))
    by (unfold newPathLinter;
        replace (findProjectRoot hostProj None) with (Return (js "/home/proj"))
          by (vm_compute; reflexivity);
        reflexivity).
  reflexivity.
Defined.

Lemma plugin_wrapped_twice_reports_twice_witness :
  exists proxy2 intercepted2 program0 linter,
    createPathLinterPlugin hostProj (mkOptions None) proxyDemo = Return proxy2
    /\ proxy2 (js "getSemanticDiagnostics") = PropDiagnosticsFn intercepted2
    /\ callGetProgram serviceDemo = Return program0
    /\ newPathLinter hostProj program0 (mkOptions None) = Return linter
    /\ forall name originalDiagnostics sourceFile,
         callGetSemanticDiagnostics serviceDemo name
         = Return originalDiagnostics ->
         getSourceFile program0 name = Some sourceFile ->
         intercepted2 name
         = Return ((originalDiagnostics ++ checkFile hostProj linter sourceFile)
                   ++ checkFile hostProj linter sourceFile).
Proof.
  apply (plugin_wrapped_twice_reports_twice hostProj (mkOptions None)
           serviceDemo proxyDemo).
  unfold createPathLinterPlugin, proxyDemo.
  replace (callGetProgram serviceDemo)
    with (Return (programOf [fileBadLiteral])) by reflexivity.
  cbn [bind].
  replace (newPathLinter hostProj (programOf [fileBadLiteral]) (mkOptions None))
    with (Return (mkLinter (programOf [fileBadLiteral]) (js "/home/proj")
                    (mkOptions (Some sev_error))))
    by (unfold newPathLinter;
        replace (findProjectRoot hostProj None) with (Return (js "/home/proj"))
          by (vm_compute; reflexivity);
        reflexivity).
  reflexivity.
Defined.

(** A declaration inside the initializer of another is reported. *)
Example nested_declaration_reported :
  checkFile hostProj linterProj (mkSourceFile (js "nested.ts") false nodeNested)
  = [mkDiagnostic DiagnosticCategory.Error 1001
       (invalidPathMessage (js "src/nonexistent-file.ts"))
       (mkSourceFile (js "nested.ts") false nodeNested) 60 25].
Proof. replay. Qed.

(** A declaration inside the type annotation of another is reported,
    the annotation being a child that [ts.forEachChild] visits. *)
Example declaration_in_annotation_reported :
  checkFile hostProj linterProj
    (mkSourceFile (js "annotated.ts") false nodeInAnnotation)
  = [mkDiagnostic DiagnosticCategory.Error 1001
       (invalidPathMessage (js "src/nonexistent-file.ts"))
       (mkSourceFile (js "annotated.ts") false nodeInAnnotation) 70 25].
Proof. replay. Qed.

(** [run] passes over a declaration file that [checkFile], which the
    plugin calls, reports on. *)
Example declaration_file_skipped_by_run_only :
  run hostProj
    (mkLinter (programOf [fileDeclarations]) (js "/home/proj")
       (mkOptions (Some sev_error))) = []
  /\ List.length (checkFile hostProj linterProj fileDeclarations) = 1.
Proof. split; replay. Qed.

(** [isProjectRoot] holds in a subdirectory that holds no marker. *)
Example isProjectRoot_in_subdirectory :
  isProjectRoot hostProj (js "/home/proj/src") = true
  /\ hasMarker hostProj (js "/home/proj/src") = false
  /\ isProjectRoot hostNoProject (js "/tmp/scratch") = false.
Proof. repeat split; replay. Qed.
